(** * pktfwd/utils.py: start-up helpers of the LoRa packet forwarder

    A shallow embedding of [pktfwd/utils.py].  The Python functions talk to
    the outside world in three ways: they spawn child processes
    ([subprocess.run]), they read and write files, and they log and sleep.
    All of it is threaded through an explicit [world]; what the outside
    world answers (does a child start, which status does it exit with, can
    a file be opened for writing) is given by an environment [env], and
    for the one run whose output is captured by what its child does,
    [captured]. *)

From Stdlib Require Import ZArith Floats.
From stdpp Require Import base option list strings pretty gmap.

Set Warnings "-register-all".

Open Scope Z_scope.
Open Scope string_scope.
Open Scope list_scope.

(** ** Exceptions, results *)

(** The exceptions that occur in the module.  [RetryError] is what
    tenacity raises once [stop_after_attempt] holds; it carries the
    exception of the last attempt. *)
Inductive exn : Type :=
  | FileNotFoundError (path : string)
  | PermissionError (path : string)
  | OSError (msg : string)
  | CalledProcessError (returncode : Z) (cmd : list string)
  | KeyError (key : string)
  | TypeError
  | JSONDecodeError
  | SameFileError
  | UnicodeDecodeError
  | RetryError (last_attempt : exn).

Inductive result (A : Type) : Type :=
  | Ok (a : A)
  | Exn (e : exn).
Arguments Ok {A} a.
Arguments Exn {A} e.

Definition is_ok {A} (r : result A) : bool :=
  match r with Ok _ => true | Exn _ => false end.

Definition is_exn {A} (r : result A) : bool := negb (is_ok r).

(** ** Observable events *)

Inductive event : Type :=
  | EvRun (args : list string)               (* subprocess.run(args, ...) *)
  | EvSleep (seconds : Z)                    (* tenacity's sleep *)
  | EvDebug (msg : string)                   (* LOGGER.debug(msg) *)
  | EvBeforeSleepLog (seconds : Z) (e : exn) (* before_sleep_log(LOGGER, ...) *).

Global Instance exn_eq_dec : EqDecision exn.
Proof. solve_decision. Defined.

Global Instance event_eq_dec : EqDecision event.
Proof. solve_decision. Defined.

(** ** JSON values, as Python holds them *)

(** A [dict] keeps its keys in insertion order: an association list. *)
Inductive json : Type :=
  | JNull
  | JBool (b : bool)
  | JInt (n : Z)
  | JFloat (x : float)
  | JStr (s : string)
  | JList (items : list json)
  | JDict (members : list (string * json)).

(** [d.get(k)]: the first member named [k]. *)
Fixpoint dict_get {V} (k : string) (d : list (string * V)) : option V :=
  match d with
  | [] => None
  | (k', v) :: d' => if decide (k = k') then Some v else dict_get k d'
  end.

(** [d[k] = x]: an existing key keeps its place, a new key goes last. *)
Fixpoint dict_set {V} (k : string) (x : V) (d : list (string * V))
    : list (string * V) :=
  match d with
  | [] => [(k, x)]
  | (k', v) :: d' =>
      if decide (k = k') then (k, x) :: d' else (k', v) :: dict_set k x d'
  end.

(** [obj[k]] with a string key: [KeyError] on a dict without the key,
    [TypeError] on anything that is not a dict. *)
Definition py_getitem (obj : json) (k : string) : result json :=
  match obj with
  | JDict d =>
      match dict_get k d with
      | Some v => Ok v
      | None => Exn (KeyError k)
      end
  | _ => Exn TypeError
  end.

(** [obj[k] = x] with a string key: only a dict takes it. *)
Definition py_setitem (obj : json) (k : string) (x : json) : result json :=
  match obj with
  | JDict d => Ok (JDict (dict_set k x d))
  | _ => Exn TypeError
  end.

(** ** The world *)

(** [w_log]: the events so far, oldest first.  [w_fs]: the text files, by
    path.  [w_attempt_number]: tenacity's [statistics["attempt_number"]] of
    the retrying object that wraps [retry_start_concentrator]. *)
Record world : Type := World {
  w_log : list event;
  w_fs : gmap string string;
  w_attempt_number : nat
}.

(** What one [subprocess.run] does before any [check]: it hands back a
    [CompletedProcess] with the status the child exited with, or the call
    itself raises (the program is missing or not executable, its output
    cannot be decoded, ...). *)
Inductive outcome : Type :=
  | Exited (returncode : Z)
  | Raised (e : exn).

(** What the child of one [subprocess.run(..., capture_output=True,
    text=True)] does.  The program cannot be started; or the child exits
    with a status, having written bytes to its standard output and to its
    standard error, each of which decodes to a text or does not ([None]);
    or the child never exits, and the call, which was given no timeout,
    waits for it for ever. *)
Inductive captured : Type :=
  | NotStarted (e : exn)
  | Terminated (returncode : Z) (stdout stderr : option string)
  | NeverTerminates.

(** The status that the child exited with, if it did. *)
Definition exit_status (c : captured) : option Z :=
  match c with
  | Terminated returncode _ _ => Some returncode
  | _ => None
  end.

(** The environment: what lies outside the module.  [env_proc h args] is
    the outcome of running [args] after the events [h]; [env_writable p]
    tells whether [open(p, 'w')] succeeds; [json_loads] and [json_dumps]
    are the decoder and the encoder of Python's [json] module on the text
    of a file ([None]: the text is not JSON). *)
Record env : Type := Env {
  env_proc : list event → list string → outcome;
  env_writable : string → bool;
  json_loads : string → option json;
  json_dumps : json → string
}.

(** ** The monad of the module: state and exceptions *)

Definition M (A : Type) : Type := world → result A * world.

Global Instance M_ret : MRet M := λ A a w, (Ok a, w).

Global Instance M_bind : MBind M := λ A B f m w,
  match m w with
  | (Ok a, w') => f a w'
  | (Exn e, w') => (Exn e, w')
  end.

Definition raise {A} (e : exn) : M A := λ w, (Exn e, w).

(** A pure computation that may raise. *)
Definition lift {A} (r : result A) : M A := λ w, (r, w).

Definition emit (ev : event) : M unit := λ w,
  (Ok tt, World (w_log w ++ [ev]) (w_fs w) (w_attempt_number w)).

(** The events that [w'] has and [w] has not. *)
Definition events_since (w w' : world) : list event :=
  drop (length (w_log w)) (w_log w').

(** ** Constants of the module *)

Definition LORA_PKT_FWD_RETRY_SLEEP_SECONDS : Z := 2.
Definition LORA_PKT_FWD_MAX_TRIES : nat := 5.

(** ** Python primitives *)

(** [str(n)] for an integer. *)
Definition str (n : Z) : string := pretty n.

(** [LOGGER.debug]. *)
Definition LOGGER_debug (msg : string) : M unit := emit (EvDebug msg).

Section with_env.

Context (E : env).

(** The table of [pktfwd/config/region_config_filenames.py]: from a
    region to the name of its configuration file. *)
Context (REGION_CONFIG_FILENAMES : gmap string string).

(** *** Files *)

(** [with open(path) as f: f.read()] *)
Definition read_file (path : string) : M string := λ w,
  match w_fs w !! path with
  | Some text => (Ok text, w)
  | None => (Exn (FileNotFoundError path), w)
  end.

(** [open(path, 'w')]: the file is created or truncated at once. *)
Definition open_w (path : string) : M unit := λ w,
  if env_writable E path
  then (Ok tt, World (w_log w) (<[path := ""]> (w_fs w)) (w_attempt_number w))
  else (Exn (PermissionError path), w).

(** [f.write(text)] on the file opened at [path]. *)
Definition file_write (path text : string) : M unit := λ w,
  let old := default "" (w_fs w !! path) in
  (Ok tt, World (w_log w) (<[path := old +:+ text]> (w_fs w))
                (w_attempt_number w)).

(** [shutil.copyfile(src, dst)] on a store in which a path names its
    file: there are no links and no two spellings of one path, so that
    two paths are the same file exactly when they are the same string.
    [_samefile] is false when [src] does not exist, and the source is
    opened before the destination. *)
Definition copyfile (src dst : string) : M unit := λ w,
  if bool_decide (is_Some (w_fs w !! src)) && bool_decide (src = dst)
  then (Exn SameFileError, w)
  else (text ← read_file src;
        open_w dst;;
        file_write dst text) w.

(** [json.load(f)] on the file at [path]. *)
Definition json_load (path : string) : M json :=
  text ← read_file path;
  match json_loads E text with
  | Some v => mret v
  | None => raise JSONDecodeError
  end.

(** [with open(path, 'w') as f: json.dump(obj, f)] *)
Definition json_dump (obj : json) (path : string) : M unit :=
  open_w path;;
  file_write path (json_dumps E obj).

(** [subprocess.run(args, check=check)]: the call is logged, then the
    environment decides.  The value returned stands for the
    [CompletedProcess]: its [returncode].  With [check=True] a status
    other than 0 raises [CalledProcessError]. *)
Definition subprocess_run (check : bool) (args : list string) : M Z := λ w,
  let w' := World (w_log w ++ [EvRun args]) (w_fs w) (w_attempt_number w) in
  match env_proc E (w_log w) args with
  | Raised e => (Exn e, w')
  | Exited rc =>
      if check && negb (rc =? 0)%Z
      then (Exn (CalledProcessError rc args), w')
      else (Ok rc, w')
  end.

(** ** write_diagnostics *)

Definition write_diagnostics (diagnostics_filepath : string)
    (is_running : bool) : M unit :=
  open_w diagnostics_filepath;;
  if is_running
  then file_write diagnostics_filepath "true"
  else file_write diagnostics_filepath "false".

(** ** run_reset_lgw *)

Definition run_reset_lgw (is_sx1302 : bool)
    (sx1301_reset_lgw_filepath sx1302_reset_lgw_filepath : string)
    (reset_lgw_pin : Z) : M unit :=
  let reset_lgw_filepath :=
    if is_sx1302 then sx1302_reset_lgw_filepath
    else sx1301_reset_lgw_filepath in
  let reset_lgw_pin_str := str reset_lgw_pin in
  LOGGER_debug ("Executing " +:+ reset_lgw_filepath +:+
                " with reset pin " +:+ reset_lgw_pin_str);;
  subprocess_run false [reset_lgw_filepath; "stop"; reset_lgw_pin_str];;
  subprocess_run false [reset_lgw_filepath; "start"; reset_lgw_pin_str];;
  mret tt.

(** ** is_concentrator_sx1302 *)

(** [subprocess.run(args, capture_output=True, text=True, check=check)].
    [child h args] is what the child of [args] does after the events [h].
    The call is logged; a program that cannot be started raises; the
    output is decoded while it is collected, so that output which does
    not decode raises [UnicodeDecodeError] whatever the status; then,
    with [check=True], a status other than 0 raises
    [CalledProcessError].  The value returned stands for the
    [CompletedProcess]: its [returncode], [stdout] and [stderr].  [None]:
    the call does not return. *)
Definition subprocess_run_captured
    (child : list event → list string → captured)
    (check : bool) (args : list string)
    : world → option (result (Z * string * string) * world) := λ w,
  let w' := World (w_log w ++ [EvRun args]) (w_fs w) (w_attempt_number w) in
  match child (w_log w) args with
  | NeverTerminates => None
  | NotStarted e => Some (Exn e, w')
  | Terminated rc (Some out) (Some err) =>
      if check && negb (rc =? 0)%Z
      then Some (Exn (CalledProcessError rc args), w')
      else Some (Ok (rc, out, err), w')
  | Terminated _ _ _ => Some (Exn UnicodeDecodeError, w')
  end.

(** The [.stdout] of the completed process is read and dropped;
    [except Exception] turns every exception of the run into [False]. *)
Definition is_concentrator_sx1302
    (child : list event → list string → captured)
    (util_chip_id_filepath spi_bus : string)
    : world → option (result bool * world) := λ w,
  let util_chip_id_cmd := [util_chip_id_filepath; "-d"; "/dev/" +:+ spi_bus] in
  match subprocess_run_captured child true util_chip_id_cmd w with
  | None => None
  | Some (Ok _, w') => Some (Ok true, w')
  | Some (Exn _, w') => Some (Ok false, w')
  end.

(** ** get_region_filename *)

Definition get_region_filename (region : string) : M string := λ w,
  match REGION_CONFIG_FILENAMES !! region with
  | Some filename => (Ok filename, w)
  | None => (Exn (KeyError region), w)
  end.

(** ** replace_sx1301_global_conf_with_regional *)

Definition replace_sx1301_global_conf_with_regional
    (root_dir sx1301_region_configs_dir region : string) : M unit :=
  filename ← get_region_filename region;
  let region_config_filepath :=
    sx1301_region_configs_dir +:+ "/" +:+ filename in
  let global_config_filepath := root_dir +:+ "/" +:+ "global_conf.json" in
  LOGGER_debug ("Copying SX1301 conf from " +:+ region_config_filepath +:+
                " to " +:+ global_config_filepath);;
  copyfile region_config_filepath global_config_filepath.

(** ** replace_sx1302_global_conf_with_regional *)

(** [new_global_conf['SX130x_conf']['com_dir'] = value]: the inner dict is
    fetched, then changed in place; being the very object that the outer
    dict holds, the change shows in the outer dict, at the same key. *)
Definition inject_com_dir (new_global_conf value : json) : result json :=
  match py_getitem new_global_conf "SX130x_conf" with
  | Exn e => Exn e
  | Ok sx130x_conf =>
      match py_setitem sx130x_conf "com_dir" value with
      | Exn e => Exn e
      | Ok sx130x_conf' =>
          match new_global_conf with
          | JDict d => Ok (JDict (dict_set "SX130x_conf" sx130x_conf' d))
          | _ => Exn TypeError
          end
      end
  end.

Definition replace_sx1302_global_conf_with_regional
    (sx1302_region_configs_dir region spi_bus : string) : M unit :=
  filename ← get_region_filename region;
  let region_config_filepath :=
    sx1302_region_configs_dir +:+ "/" +:+ filename in
  let global_config_filepath :=
    sx1302_region_configs_dir +:+ "/" +:+ "global_conf.json" in
  new_global_conf ← json_load region_config_filepath;
  new_global_conf ← lift (inject_com_dir new_global_conf
                            (JStr ("/dev/" +:+ spi_bus)));
  json_dump new_global_conf global_config_filepath.

(** ** update_global_conf *)

Definition update_global_conf (is_sx1302 : bool)
    (root_dir sx1301_region_configs_dir sx1302_region_configs_dir
     region spi_bus : string) : M unit :=
  if is_sx1302
  then replace_sx1302_global_conf_with_regional
         sx1302_region_configs_dir region spi_bus
  else replace_sx1301_global_conf_with_regional
         root_dir sx1301_region_configs_dir region.

(** ** retry_start_concentrator *)

(** The function under the decorator: one attempt.  [subprocess.run] gets
    the path of the forwarder as a string, which runs that program
    without arguments. *)
Definition start_concentrator (is_sx1302 : bool)
    (spi_bus sx1302_lora_pkt_fwd_filepath sx1301_lora_pkt_fwd_dir
     sx1301_reset_lgw_filepath sx1302_reset_lgw_filepath : string)
    (reset_lgw_pin : Z) : M unit :=
  run_reset_lgw is_sx1302 sx1301_reset_lgw_filepath
                sx1302_reset_lgw_filepath reset_lgw_pin;;
  if is_sx1302
  then subprocess_run false [sx1302_lora_pkt_fwd_filepath];; mret tt
  else
    let sx1301_lora_pkt_fwd_filepath :=
      sx1301_lora_pkt_fwd_dir +:+ "/lora_pkt_fwd_" +:+ spi_bus in
    subprocess_run false [sx1301_lora_pkt_fwd_filepath];; mret tt.

(** tenacity keeps the number of the current attempt in the statistics
    of the retrying object. *)
Definition set_attempt_number (n : nat) : M unit := λ w,
  (Ok tt, World (w_log w) (w_fs w) n).

Definition next_attempt_number : M unit := λ w,
  (Ok tt, World (w_log w) (w_fs w) (S (w_attempt_number w))).

(** tenacity's [@retry(wait=wait_fixed(seconds), stop=stop_after_attempt(n),
    before_sleep=before_sleep_log(...))].  The default [retry] condition
    retries on any exception and on no return value; the default
    [reraise=False] wraps the last exception in [RetryError].

    [retry_loop] is the loop from the current attempt on; [remaining] is
    the number of attempts that may still follow it, so that
    [stop_after_attempt], which reads [attempt_number >= n], is
    [remaining = 0]. *)
Fixpoint retry_loop {A} (seconds : Z) (remaining : nat) (fn : M A) : M A :=
  λ w,
  match fn w with
  | (Ok a, w') => (Ok a, w')
  | (Exn e, w') =>
      match remaining with
      | O => (Exn (RetryError e), w')
      | S remaining' =>
          (next_attempt_number;;
           emit (EvBeforeSleepLog seconds e);;
           emit (EvSleep seconds);;
           retry_loop seconds remaining' fn) w'
      end
  end.

Definition retry {A} (seconds : Z) (max_attempt_number : nat) (fn : M A)
    : M A :=
  set_attempt_number 1;;
  retry_loop seconds (max_attempt_number - 1) fn.

Definition retry_start_concentrator (is_sx1302 : bool)
    (spi_bus sx1302_lora_pkt_fwd_filepath sx1301_lora_pkt_fwd_dir
     sx1301_reset_lgw_filepath sx1302_reset_lgw_filepath : string)
    (reset_lgw_pin : Z) : M unit :=
  retry LORA_PKT_FWD_RETRY_SLEEP_SECONDS LORA_PKT_FWD_MAX_TRIES
    (start_concentrator is_sx1302 spi_bus sx1302_lora_pkt_fwd_filepath
       sx1301_lora_pkt_fwd_dir sx1301_reset_lgw_filepath
       sx1302_reset_lgw_filepath reset_lgw_pin).

End with_env.

(** ** Observations on a run *)

(** [KeyError] is the [LookupError] that a dict raises. *)
Definition is_LookupError (e : exn) : bool :=
  match e with KeyError _ => true | _ => false end.

(** The script that [run_reset_lgw] picks and its two command lines. *)
Definition reset_script (is_sx1302 : bool)
    (sx1301_reset_lgw_filepath sx1302_reset_lgw_filepath : string) : string :=
  if is_sx1302 then sx1302_reset_lgw_filepath else sx1301_reset_lgw_filepath.

Definition reset_stop (script : string) (pin : Z) : list string :=
  [script; "stop"; str pin].

Definition reset_start (script : string) (pin : Z) : list string :=
  [script; "start"; str pin].

Definition reset_debug (script : string) (pin : Z) : event :=
  EvDebug ("Executing " +:+ script +:+ " with reset pin " +:+ str pin).

(** The program that [retry_start_concentrator] launches. *)
Definition forwarder (is_sx1302 : bool)
    (spi_bus sx1302_lora_pkt_fwd_filepath sx1301_lora_pkt_fwd_dir : string)
    : string :=
  if is_sx1302 then sx1302_lora_pkt_fwd_filepath
  else sx1301_lora_pkt_fwd_dir +:+ "/lora_pkt_fwd_" +:+ spi_bus.

(** A world with more events, the rest as it was. *)
Definition extend (w : world) (evs : list event) : world :=
  World (w_log w ++ evs) (w_fs w) (w_attempt_number w).

(** A reset is counted where it starts: at its "stop" command. *)
Inductive mark : Type :=
  | MReset
  | MSleep (seconds : Z).

Global Instance mark_eq_dec : EqDecision mark.
Proof. solve_decision. Defined.

Definition mark_of (stop_cmd : list string) (ev : event) : option mark :=
  match ev with
  | EvRun args => if decide (args = stop_cmd) then Some MReset else None
  | EvSleep seconds => Some (MSleep seconds)
  | _ => None
  end.

(** The resets and the sleeps of a log, in their order. *)
Definition schedule (stop_cmd : list string) (evs : list event) : list mark :=
  omap (mark_of stop_cmd) evs.

Definition reset_invocations (stop_cmd : list string) (evs : list event)
    : nat :=
  length (filter (λ m, m = MReset) (schedule stop_cmd evs)).

Definition sleeps (evs : list event) : list Z :=
  omap (λ ev, match ev with EvSleep s => Some s | _ => None end) evs.

(** The command lines of [evs] whose run raised, when [evs] follows the
    history [h]. *)
Fixpoint raised_runs (E : env) (h evs : list event) : list (list string) :=
  match evs with
  | [] => []
  | ev :: evs' =>
      match ev with
      | EvRun args =>
          match env_proc E h args with
          | Raised _ => [args]
          | Exited _ => []
          end
      | _ => []
      end ++ raised_runs E (h ++ [ev]) evs'
  end.

(** [n] failed attempts, each followed by its sleep, then a last attempt. *)
Definition retry_schedule (seconds : Z) (failed : nat) : list mark :=
  mjoin (replicate failed [MReset; MSleep seconds]) ++ [MReset].

(** The command lines that were run, in their order. *)
Definition runs (evs : list event) : list (list string) :=
  omap (λ ev, match ev with EvRun args => Some args | _ => None end) evs.

(** The exceptions that the log lines before the sleeps report, in
    their order. *)
Definition before_sleep_logs (evs : list event) : list exn :=
  omap (λ ev, match ev with EvBeforeSleepLog _ e => Some e | _ => None end)
       evs.

(** Whether every sleep of [evs] comes right after the log line that
    announces it, with the same number of seconds; [prev] is the event
    before [evs]. *)
Fixpoint sleeps_announced (prev : option event) (evs : list event) : bool :=
  match evs with
  | [] => true
  | ev :: evs' =>
      match ev with
      | EvSleep s =>
          match prev with
          | Some (EvBeforeSleepLog s' _) => bool_decide (s' = s)
          | _ => false
          end
      | _ => true
      end && sleeps_announced (Some ev) evs'
  end.

(** The events of a run of the retry loop: the failed attempts, each with
    its events and its exception and followed by the log line and the
    sleep, then the events of the last attempt. *)
Definition retry_events (seconds : Z) (failed : list (list event * exn))
    (last : list event) : list event :=
  mjoin ((λ p, p.1 ++ [EvBeforeSleepLog seconds p.2; EvSleep seconds])
         <$> failed) ++ last.

(** ** Sample environments *)

(** An environment in which the programs named in [missing] cannot be
    started and every other child exits with [rc]. *)
Definition env_missing (missing : list string) (rc : Z) : env :=
  Env (λ _ args,
         match args with
         | prog :: _ =>
             if decide (prog ∈ missing) then Raised (FileNotFoundError prog)
             else Exited rc
         | [] => Raised (OSError "no program")
         end)
      (λ _, true) (λ _, None) (λ _, "").

(** An environment in which the forwarder [prog] cannot be started until
    [n] sleeps have gone by. *)
Definition env_late (prog : string) (n : nat) : env :=
  Env (λ h args,
         if decide (args = [prog] ∧ (length (sleeps h) < n)%nat)
         then Raised (FileNotFoundError prog)
         else Exited 0)
      (λ _, true) (λ _, None) (λ _, "").

(** * Properties *)

(** ** Small facts about the model *)

Example str_positive : str 17 = "17".
Proof. reflexivity. Qed.

Example str_negative : str (-4) = "-4".
Proof. reflexivity. Qed.

Lemma extend_extend w l1 l2 : extend (extend w l1) l2 = extend w (l1 ++ l2).
Proof. unfold extend; simpl. by rewrite app_assoc. Qed.

Lemma w_log_extend w l : w_log (extend w l) = (w_log w ++ l)%list.
Proof. reflexivity. Qed.

Lemma events_since_extend w l : events_since w (extend w l) = l.
Proof. unfold events_since, extend; simpl. by rewrite drop_app_length. Qed.

Lemma dict_get_set_eq {V} k (x : V) d : dict_get k (dict_set k x d) = Some x.
Proof.
  induction d as [|[k' v] d IH]; simpl.
  - by rewrite decide_True.
  - destruct (decide (k = k')) as [->|Hne]; simpl.
    + by rewrite decide_True.
    + by rewrite decide_False.
Qed.

Lemma dict_get_set_ne {V} k k' (x : V) d :
  k' ≠ k → dict_get k' (dict_set k x d) = dict_get k' d.
Proof.
  intros Hne. induction d as [|[k0 v] d IH]; simpl.
  - by rewrite decide_False.
  - destruct (decide (k = k0)) as [->|Hk]; simpl.
    + by rewrite !decide_False.
    + by rewrite IH.
Qed.

(** Assigning to a key that is there moves no key. *)
Lemma dict_set_keys_present {V} k (x : V) d :
  is_Some (dict_get k d) → (dict_set k x d).*1 = d.*1.
Proof.
  induction d as [|[k0 v] d IH]; simpl.
  - by intros [? ?].
  - destruct (decide (k = k0)) as [->|Hk]; simpl; [done|].
    intros H. f_equal. by apply IH.
Qed.

(** Assigning to a key that is not there puts it last. *)
Lemma dict_set_keys_absent {V} k (x : V) d :
  dict_get k d = None → (dict_set k x d).*1 = (d.*1 ++ [k])%list.
Proof.
  induction d as [|[k0 v] d IH]; simpl; [done|].
  destruct (decide (k = k0)) as [->|Hk]; simpl; [done|].
  intros H. f_equal. by apply IH.
Qed.

(** ** ChipDetector *)

(** C5 as the specification states it fails: the diagnostic exits with
    status 0, and yet the detector answers [false], because the output
    that it captured does not decode. *)
Lemma is_concentrator_sx1302_status_0_false :
  let child := λ (_ : list event) (_ : list string),
                 Terminated 0 None (Some "") in
  let w := World [] ∅ 0 in
  let cmd := ["/opt/chip_id"; "-d"; "/dev/spidev1.2"] in
  ¬ (is_concentrator_sx1302 child "/opt/chip_id" "spidev1.2" w
       = Some (Ok true, extend w [EvRun cmd])
     ↔ exit_status (child (w_log w) cmd) = Some 0).
Proof. intros child w cmd [_ Htrue]. by specialize (Htrue eq_refl). Qed.

(** C5, as the code has it.  [is_concentrator_sx1302] never raises.  It
    returns, after one run of the diagnostic on [/dev/<bus>], whenever the
    diagnostic cannot be started or exits, and it does not return when
    the diagnostic never exits: no timeout is set.  Its answer is [true]
    exactly when the diagnostic exits with status 0 and what it wrote to
    its standard output and to its standard error decodes; it is [false]
    for any other status, for output that does not decode, and for a
    diagnostic that cannot be started. *)
Theorem is_concentrator_sx1302_classifies child util_chip_id_filepath
    spi_bus w :
  let cmd := [util_chip_id_filepath; "-d"; "/dev/" +:+ spi_bus] in
  let run := is_concentrator_sx1302 child util_chip_id_filepath spi_bus w in
  (run = None ↔ child (w_log w) cmd = NeverTerminates)
  ∧ (∀ e w', run ≠ Some (Exn e, w'))
  ∧ (child (w_log w) cmd ≠ NeverTerminates →
     ∃ b : bool,
       run = Some (Ok b, extend w [EvRun cmd])
       ∧ (b = true ↔ ∃ out err,
            child (w_log w) cmd = Terminated 0 (Some out) (Some err))
       ∧ (∀ rc, rc ≠ 0 → exit_status (child (w_log w) cmd) = Some rc →
            b = false)
       ∧ (∀ e, child (w_log w) cmd = NotStarted e → b = false)).
Proof.
  intros cmd run. subst run.
  unfold is_concentrator_sx1302, subprocess_run_captured. fold cmd.
  unfold extend.
  destruct (child (w_log w) cmd) as [e|rc [out|] [err|]|] eqn:Hchild;
    cbn [andb].
  - split; [done|]. split; [done|]. intros _. exists false.
    split; [done|]. split; [|done]. split; [done|]. by intros (? & ? & ?).
  - destruct (Z.eqb_spec rc 0) as [->|Hrc]; cbn [negb].
    + split; [done|]. split; [done|]. intros _. exists true.
      split; [done|]. split; [split; by eauto|]. split; [|done].
      by intros rc Hrc [= <-].
    + split; [done|]. split; [done|]. intros _. exists false.
      split; [done|]. split; [|done]. split; [done|].
      intros (? & ? & [= -> _ _]). done.
  - split; [done|]. split; [done|]. intros _. exists false.
    split; [done|]. split; [|done]. split; [done|]. by intros (? & ? & ?).
  - split; [done|]. split; [done|]. intros _. exists false.
    split; [done|]. split; [|done]. split; [done|]. by intros (? & ? & ?).
  - split; [done|]. split; [done|]. intros _. exists false.
    split; [done|]. split; [|done]. split; [done|]. by intros (? & ? & ?).
  - split; [done|]. split; [done|]. by intros [].
Qed.

Lemma is_concentrator_sx1302_classifies_witness :
  let child := λ (_ : list event) (args : list string),
                 if decide (args !! 2%nat = Some "/dev/spidev1.2")
                 then Terminated 0 (Some "concentrator EUI: 0x0016c001")
                                   (Some "")
                 else Terminated 1 (Some "") (Some "failed to connect") in
  let w := World [] ∅ 0 in
  is_concentrator_sx1302 child "/opt/chip_id" "spidev1.2" w
    = Some (Ok true, World [EvRun ["/opt/chip_id"; "-d"; "/dev/spidev1.2"]]
                           ∅ 0)
  ∧ is_concentrator_sx1302 child "/opt/chip_id" "spidev0.0" w
    = Some (Ok false, World [EvRun ["/opt/chip_id"; "-d"; "/dev/spidev0.0"]]
                            ∅ 0).
Proof.
  intros child w. split.
  - destruct (is_concentrator_sx1302_classifies child "/opt/chip_id"
                "spidev1.2" w) as (_ & _ & Hret).
    destruct Hret as (b & Hrun & Htrue & _); [discriminate|].
    rewrite Hrun. destruct b; [reflexivity|].
    assert (false = true) by (apply Htrue; by eauto). discriminate.
  - destruct (is_concentrator_sx1302_classifies child "/opt/chip_id"
                "spidev0.0" w) as (_ & _ & Hret).
    destruct Hret as (b & Hrun & _ & Hfalse & _); [discriminate|].
    rewrite Hrun, (Hfalse 1); [reflexivity|discriminate|reflexivity].
Defined.

(** ** RegionResolver *)

(** C6: for a region of the table [get_region_filename] returns the
    filename of the table; for a region that the table lacks it raises
    [KeyError], a [LookupError], and both materializers pass that
    exception on to their caller at once: nothing is logged, no file is
    touched, nothing sleeps and nothing is attempted again. *)
Theorem get_region_filename_lookup (E : env) (T : gmap string string)
    (region : string) (w : world) :
  (∀ filename, T !! region = Some filename →
     get_region_filename T region w = (Ok filename, w))
  ∧ (T !! region = None →
     get_region_filename T region w = (Exn (KeyError region), w)
     ∧ is_LookupError (KeyError region) = true
     ∧ ∀ is_sx1302 root_dir dir1 dir2 spi_bus,
         update_global_conf E T is_sx1302 root_dir dir1 dir2 region spi_bus w
           = (Exn (KeyError region), w)).
Proof.
  split.
  - intros filename Hin. unfold get_region_filename. by rewrite Hin.
  - intros Hout. split; [|split; [done|]].
    + unfold get_region_filename. by rewrite Hout.
    + intros [] ????; unfold update_global_conf,
        replace_sx1302_global_conf_with_regional,
        replace_sx1301_global_conf_with_regional, mbind, M_bind,
        get_region_filename; by rewrite Hout.
Qed.

Lemma get_region_filename_lookup_witness :
  let T : gmap string string := {[ "EU868" := "EU-global_conf.json" ]} in
  let E := Env (λ _ _, Exited 0) (λ _, true) (λ _, None) (λ _, "") in
  let w := World [] ∅ 0 in
  get_region_filename T "EU868" w = (Ok "EU-global_conf.json", w)
  ∧ update_global_conf E T true "/opt" "/a" "/b" "US915" "spidev1.2" w
      = (Exn (KeyError "US915"), w).
Proof.
  intros T E w.
  destruct (get_region_filename_lookup E T "EU868" w) as [Hin _].
  destruct (get_region_filename_lookup E T "US915" w) as [_ Hout].
  split.
  - apply Hin. reflexivity.
  - apply Hout. reflexivity.
Defined.

(** ** ConfigMaterializer *)

(** Writing a whole text to a file that can be opened leaves that text
    there and every other file as it was. *)
Lemma write_whole_file E path text w :
  env_writable E path = true →
  (open_w E path;; file_write path text) w
  = (Ok tt, World (w_log w) (<[path := text]> (w_fs w)) (w_attempt_number w)).
Proof.
  intros Hw. unfold mbind, M_bind, open_w, file_write. rewrite Hw.
  cbn [w_log w_fs w_attempt_number].
  by rewrite lookup_insert_eq, insert_insert_eq.
Qed.

(** What the generation-A materializer does when the template exists. *)
Lemma replace_sx1301_run E (T : gmap string string)
    root_dir sx1301_region_configs_dir region filename text w :
  let src := sx1301_region_configs_dir +:+ "/" +:+ filename in
  let dst := root_dir +:+ "/global_conf.json" in
  let w1 := extend w [EvDebug ("Copying SX1301 conf from " +:+ src +:+
                               " to " +:+ dst)] in
  T !! region = Some filename →
  w_fs w !! src = Some text →
  replace_sx1301_global_conf_with_regional E T root_dir
    sx1301_region_configs_dir region w
  = if decide (src = dst) then (Exn SameFileError, w1)
    else if env_writable E dst
         then (Ok tt, World (w_log w1) (<[dst := text]> (w_fs w))
                            (w_attempt_number w))
         else (Exn (PermissionError dst), w1).
Proof.
  intros src dst w1 HT Hsrc.
  unfold replace_sx1301_global_conf_with_regional, mbind, M_bind.
  unfold get_region_filename. rewrite HT. unfold LOGGER_debug, emit.
  change (root_dir +:+ "/" +:+ "global_conf.json") with dst. fold src.
  unfold copyfile. cbn [w_log w_fs w_attempt_number].
  rewrite bool_decide_eq_true_2 by (rewrite Hsrc; eauto).
  destruct (decide (src = dst)) as [Heq|Hne].
  - by rewrite bool_decide_eq_true_2 by done.
  - rewrite bool_decide_eq_false_2 by done. cbn [andb].
    unfold mbind, M_bind, read_file. cbn [w_log w_fs w_attempt_number].
    rewrite Hsrc. unfold open_w, file_write.
    destruct (env_writable E dst); [|done].
    cbn [w_log w_fs w_attempt_number].
    by rewrite lookup_insert_eq, insert_insert_eq.
Qed.

(** C4: for a region of the table whose template exists, once
    [replace_sx1301_global_conf_with_regional] is done the file
    [<root>/global_conf.json] holds the text of the template, character
    for character; no other file has changed, and the call returns
    normally unless the template is that very file. *)
Theorem replace_sx1301_copies_template E (T : gmap string string)
    root_dir sx1301_region_configs_dir region filename text w :
  let src := sx1301_region_configs_dir +:+ "/" +:+ filename in
  let dst := root_dir +:+ "/global_conf.json" in
  let run := replace_sx1301_global_conf_with_regional E T root_dir
               sx1301_region_configs_dir region w in
  T !! region = Some filename →
  w_fs w !! src = Some text →
  env_writable E dst = true →
  w_fs run.2 !! dst = Some text
  ∧ (∀ p, p ≠ dst → w_fs run.2 !! p = w_fs w !! p)
  ∧ (src ≠ dst → run.1 = Ok tt).
Proof.
  intros src dst run HT Hsrc Hw. subst run.
  rewrite (replace_sx1301_run E T root_dir sx1301_region_configs_dir region
             filename text w HT Hsrc).
  fold src dst. rewrite Hw.
  destruct (decide (src = dst)) as [Heq|Hne]; cbn [fst snd w_fs extend].
  - rewrite <- Heq. by repeat split.
  - split; [by rewrite lookup_insert_eq|].
    split; [|done]. intros p Hp. by rewrite lookup_insert_ne.
Qed.

Lemma replace_sx1301_copies_template_witness :
  let T : gmap string string := {[ "EU868" := "EU-global_conf.json" ]} in
  let E := Env (λ _ _, Exited 0) (λ _, true) (λ _, None) (λ _, "") in
  let w := World [] {[ "/cfg/EU-global_conf.json" := "{ a : 1 }" ]} 0 in
  let run := replace_sx1301_global_conf_with_regional E T "/opt" "/cfg"
               "EU868" w in
  w_fs run.2 !! "/opt/global_conf.json" = Some "{ a : 1 }"
  ∧ run.1 = Ok tt.
Proof.
  intros T E w run.
  destruct (replace_sx1301_copies_template E T "/opt" "/cfg" "EU868"
              "EU-global_conf.json" "{ a : 1 }" w) as (H1 & _ & H3);
    [reflexivity | reflexivity | reflexivity |].
  split; [exact H1 | apply H3; discriminate].
Defined.

Lemma inject_com_dir_dict d sub value :
  dict_get "SX130x_conf" d = Some (JDict sub) →
  inject_com_dir (JDict d) value
  = Ok (JDict (dict_set "SX130x_conf"
                 (JDict (dict_set "com_dir" value sub)) d)).
Proof. intros H. unfold inject_com_dir, py_getitem. by rewrite H. Qed.

(** What the generation-B materializer does up to the injection: the
    table, the template file and the decoder each had their say. *)
Lemma replace_sx1302_run E (T : gmap string string)
    sx1302_region_configs_dir region spi_bus filename text v w :
  let src := sx1302_region_configs_dir +:+ "/" +:+ filename in
  let dst := sx1302_region_configs_dir +:+ "/global_conf.json" in
  T !! region = Some filename →
  w_fs w !! src = Some text →
  json_loads E text = Some v →
  replace_sx1302_global_conf_with_regional E T sx1302_region_configs_dir
    region spi_bus w
  = match inject_com_dir v (JStr ("/dev/" +:+ spi_bus)) with
    | Exn e => (Exn e, w)
    | Ok v' => json_dump E v' dst w
    end.
Proof.
  intros src dst HT Hsrc Hv.
  unfold replace_sx1302_global_conf_with_regional, mbind, M_bind.
  unfold get_region_filename. rewrite HT.
  unfold json_load, mbind, M_bind, read_file. fold src. rewrite Hsrc, Hv.
  unfold mret, M_ret, lift.
  by destruct (inject_com_dir v (JStr ("/dev/" +:+ spi_bus))).
Qed.

(** C3: for a region of the table whose template exists and decodes to
    an object [d] whose member [SX130x_conf] is an object [sub],
    [replace_sx1302_global_conf_with_regional] writes to
    [<dir>/global_conf.json] the encoding of an object [d'] which is [d]
    but for [SX130x_conf.com_dir]: that member is the string
    [/dev/<bus>]; every other member of [SX130x_conf] and every other
    member of the document is the one of the template; the keys of the
    document are the same in the same order, and so are the keys of
    [SX130x_conf], with [com_dir] added last when the template had none.
    No other file changes. *)
Theorem replace_sx1302_injects_com_dir E (T : gmap string string)
    sx1302_region_configs_dir region spi_bus filename text d sub w :
  let src := sx1302_region_configs_dir +:+ "/" +:+ filename in
  let dst := sx1302_region_configs_dir +:+ "/global_conf.json" in
  T !! region = Some filename →
  w_fs w !! src = Some text →
  json_loads E text = Some (JDict d) →
  dict_get "SX130x_conf" d = Some (JDict sub) →
  env_writable E dst = true →
  ∃ d' sub',
    replace_sx1302_global_conf_with_regional E T sx1302_region_configs_dir
      region spi_bus w
    = (Ok tt, World (w_log w) (<[dst := json_dumps E (JDict d')]> (w_fs w))
                    (w_attempt_number w))
    ∧ dict_get "SX130x_conf" d' = Some (JDict sub')
    ∧ dict_get "com_dir" sub' = Some (JStr ("/dev/" +:+ spi_bus))
    ∧ (∀ k, k ≠ "com_dir" → dict_get k sub' = dict_get k sub)
    ∧ (∀ k, k ≠ "SX130x_conf" → dict_get k d' = dict_get k d)
    ∧ d'.*1 = d.*1
    ∧ sub'.*1 = (if dict_get "com_dir" sub is Some _ then sub.*1
                 else sub.*1 ++ ["com_dir"])%list.
Proof.
  intros src dst HT Hsrc Hv Hsub Hw.
  set (value := JStr ("/dev/" +:+ spi_bus)).
  exists (dict_set "SX130x_conf" (JDict (dict_set "com_dir" value sub)) d),
         (dict_set "com_dir" value sub).
  split; [|repeat split].
  - rewrite (replace_sx1302_run E T sx1302_region_configs_dir region spi_bus
               filename text (JDict d) w HT Hsrc Hv).
    fold value. rewrite (inject_com_dir_dict d sub value Hsub).
    unfold json_dump. fold dst. by apply write_whole_file.
  - apply dict_get_set_eq.
  - apply dict_get_set_eq.
  - intros k Hk. by apply dict_get_set_ne.
  - intros k Hk. by apply dict_get_set_ne.
  - apply dict_set_keys_present. rewrite Hsub. eauto.
  - destruct (dict_get "com_dir" sub) eqn:Hc.
    + apply dict_set_keys_present. rewrite Hc. eauto.
    + by apply dict_set_keys_absent.
Qed.

Lemma replace_sx1302_injects_com_dir_witness :
  let T : gmap string string := {[ "US915" := "US-global_conf.json" ]} in
  let sub := [("com_type", JStr "SPI"); ("com_dir", JStr "/dev/spidev0.0");
              ("lorawan_public", JBool true)] in
  let tmpl := [("SX130x_conf", JDict sub);
               ("gateway_conf", JDict [("serv_port_up", JInt 1700)])] in
  let E := Env (λ _ _, Exited 0) (λ _, true)
               (λ text, if decide (text = "template") then Some (JDict tmpl)
                        else None)
               (λ v, match py_getitem v "SX130x_conf" with
                     | Ok (JDict [_; (_, JStr s); _]) => "com_dir=" +:+ s
                     | _ => "?"
                     end) in
  let w := World [] {[ "/cfg/US-global_conf.json" := "template" ]} 0 in
  ∃ d' sub',
    replace_sx1302_global_conf_with_regional E T "/cfg" "US915" "spidev1.2" w
    = (Ok tt, World [] (<[ "/cfg/global_conf.json" := json_dumps E (JDict d') ]>
                          (w_fs w)) 0)
    ∧ dict_get "SX130x_conf" d' = Some (JDict sub')
    ∧ dict_get "com_dir" sub' = Some (JStr "/dev/spidev1.2")
    ∧ (∀ k, k ≠ "com_dir" → dict_get k sub' = dict_get k sub)
    ∧ (∀ k, k ≠ "SX130x_conf" → dict_get k d' = dict_get k tmpl)
    ∧ d'.*1 = ["SX130x_conf"; "gateway_conf"]
    ∧ sub'.*1 = ["com_type"; "com_dir"; "lorawan_public"].
Proof.
  intros T sub tmpl E w.
  apply (replace_sx1302_injects_com_dir E T "/cfg" "US915" "spidev1.2"
           "US-global_conf.json" "template" tmpl sub w); reflexivity.
Defined.

(** The injection fails on every document that is not an object with an
    object under [SX130x_conf]: [KeyError] when an object lacks the key,
    [TypeError] otherwise. *)
Lemma inject_com_dir_fails v value :
  (∀ d sub, v = JDict d → dict_get "SX130x_conf" d ≠ Some (JDict sub)) →
  inject_com_dir v value
  = Exn (match v with
         | JDict d => if dict_get "SX130x_conf" d is Some _ then TypeError
                      else KeyError "SX130x_conf"
         | _ => TypeError
         end).
Proof.
  intros Hbad. unfold inject_com_dir.
  destruct v as [| | | | | |d]; try done.
  unfold py_getitem.
  destruct (dict_get "SX130x_conf" d) as [x|] eqn:Hx; [|done].
  destruct x as [| | | | | |sub]; try done.
  by destruct (Hbad d sub).
Qed.

(** C10: when the template decodes but is not an object with an object
    under [SX130x_conf], [replace_sx1302_global_conf_with_regional]
    raises [KeyError] (the key is missing) or [TypeError] (the value, or
    the document, is no object) and the world is the one it started in:
    the destination was never opened, so a [global_conf.json] that was
    there is there unchanged. *)
Theorem replace_sx1302_bad_template E (T : gmap string string)
    sx1302_region_configs_dir region spi_bus filename text v w :
  let src := sx1302_region_configs_dir +:+ "/" +:+ filename in
  let dst := sx1302_region_configs_dir +:+ "/global_conf.json" in
  let run := replace_sx1302_global_conf_with_regional E T
               sx1302_region_configs_dir region spi_bus w in
  T !! region = Some filename →
  w_fs w !! src = Some text →
  json_loads E text = Some v →
  (∀ d sub, v = JDict d → dict_get "SX130x_conf" d ≠ Some (JDict sub)) →
  ∃ e, run = (Exn e, w)
     ∧ (e = KeyError "SX130x_conf" ∨ e = TypeError)
     ∧ (∀ d, v = JDict d → dict_get "SX130x_conf" d = None →
          e = KeyError "SX130x_conf" ∧ is_LookupError e = true)
     ∧ (∀ d x, v = JDict d → dict_get "SX130x_conf" d = Some x →
          e = TypeError)
     ∧ w_fs run.2 !! dst = w_fs w !! dst.
Proof.
  intros src dst run HT Hsrc Hv Hbad. subst run.
  rewrite (replace_sx1302_run E T sx1302_region_configs_dir region spi_bus
             filename text v w HT Hsrc Hv).
  rewrite (inject_com_dir_fails v _ Hbad).
  eexists; split; [done|].
  destruct v as [| | | | | |d];
    try (split; [by right|]; split; [done|]; by split).
  destruct (dict_get "SX130x_conf" d) as [x|] eqn:Hx.
  - split; [by right|]. split; [|by split].
    intros d0 [= <-]. by rewrite Hx.
  - split; [by left|]. split; [done|]. split; [|done].
    intros d0 x [= <-]. by rewrite Hx.
Qed.

Lemma replace_sx1302_bad_template_witness :
  let T : gmap string string := {[ "US915" := "US-global_conf.json" ]} in
  let tmpl := JDict [("gateway_conf", JDict [("serv_port_up", JInt 1700)])] in
  let E := Env (λ _ _, Exited 0) (λ _, true)
               (λ text, if decide (text = "template") then Some tmpl
                        else None)
               (λ _, "?") in
  let w := World [] {[ "/cfg/US-global_conf.json" := "template";
                       "/cfg/global_conf.json" := "previous" ]} 0 in
  let run := replace_sx1302_global_conf_with_regional E T "/cfg" "US915"
               "spidev1.2" w in
  run = (Exn (KeyError "SX130x_conf"), w)
  ∧ w_fs run.2 !! "/cfg/global_conf.json" = Some "previous".
Proof.
  intros T tmpl E w run.
  destruct (replace_sx1302_bad_template E T "/cfg" "US915" "spidev1.2"
              "US-global_conf.json" "template" tmpl w)
    as (e & Hrun & _ & Hkey & _ & Hfs);
    [reflexivity | reflexivity | reflexivity | |].
  - intros d sub [= <-]. discriminate.
  - destruct (Hkey _ eq_refl eq_refl) as [-> _].
    split; [exact Hrun | exact Hfs].
Defined.

(** ** The retry loop *)

Lemma retry_schedule_S seconds failed :
  retry_schedule seconds (S failed)
  = MReset :: MSleep seconds :: retry_schedule seconds failed.
Proof. reflexivity. Qed.

Lemma reset_invocations_retry_schedule seconds failed :
  length (filter (λ m, m = MReset) (retry_schedule seconds failed))
  = S failed.
Proof.
  induction failed as [|k IH]; [done|].
  rewrite retry_schedule_S, filter_cons_True by done.
  rewrite filter_cons_False by done. simpl. by rewrite IH.
Qed.

Lemma sleeps_schedule stop_cmd evs :
  sleeps evs
  = omap (λ m, match m with MSleep s => Some s | MReset => None end)
         (schedule stop_cmd evs).
Proof.
  unfold sleeps, schedule. induction evs as [|ev evs IH]; [done|].
  destruct ev as [args|s| |]; simpl; [|f_equal; exact IH|exact IH..].
  destruct (decide (args = stop_cmd)); simpl; exact IH.
Qed.

Lemma sleeps_retry_schedule seconds failed :
  omap (λ m, match m with MSleep s => Some s | MReset => None end)
       (retry_schedule seconds failed)
  = replicate failed seconds.
Proof.
  induction failed as [|k IH]; [done|].
  rewrite retry_schedule_S. simpl. f_equal. exact IH.
Qed.

(** The loop, one attempt at a time. *)
Lemma retry_loop_unfold {A} seconds remaining (fn : M A) w :
  retry_loop seconds remaining fn w
  = match fn w with
    | (Ok a, w') => (Ok a, w')
    | (Exn e, w') =>
        match remaining with
        | O => (Exn (RetryError e), w')
        | S remaining' =>
            retry_loop seconds remaining' fn
              (World (w_log w' ++
                      [EvBeforeSleepLog seconds e; EvSleep seconds])
                     (w_fs w') (S (w_attempt_number w')))
        end
    end.
Proof.
  destruct remaining as [|k]; simpl; destruct (fn w) as [[a|e] w'];
    try done.
  unfold mbind, M_bind, next_attempt_number, emit.
  cbn [w_log w_fs w_attempt_number]. by rewrite <- app_assoc.
Qed.

Section retry_loop_facts.

Context {A : Type} (seconds : Z) (stop_cmd : list string) (fn : M A).

(** The function under the decorator only adds events, and among them
    exactly one reset and no sleep. *)
Hypothesis fn_one_reset :
  ∀ w, ∃ evs, (fn w).2 = extend w evs ∧ schedule stop_cmd evs = [MReset].

(** The loop from a world [w] on: [failed] attempts fail and are each
    followed by the log line and the sleep, then a last attempt, run from
    [wl], decides: its value is returned, or its exception is wrapped when
    no attempt remains. *)
Lemma retry_loop_run remaining w :
  ∃ (failed : nat) evs wl,
    (retry_loop seconds remaining fn w).2
      = World (w_log w ++ evs) (w_fs w) (w_attempt_number w + failed)%nat
    ∧ (failed ≤ remaining)%nat
    ∧ schedule stop_cmd evs = retry_schedule seconds failed
    ∧ (fn wl).2 = (retry_loop seconds remaining fn w).2
    ∧ (retry_loop seconds remaining fn w).1
        = match (fn wl).1 with
          | Ok a => Ok a
          | Exn e => Exn (RetryError e)
          end
    ∧ (is_exn (fn wl).1 = true → failed = remaining).
Proof.
  induction remaining as [|k IH] in w |- *;
    destruct (fn_one_reset w) as (evs0 & Hw0 & Hs0);
    destruct (fn w) as [r0 w0] eqn:Hfn; simpl in Hw0; subst w0.
  - exists 0%nat, evs0, w. simpl. rewrite Hfn.
    destruct r0 as [a|e]; simpl; rewrite Nat.add_0_r; by repeat split.
  - destruct r0 as [a|e].
    + exists 0%nat, evs0, w. simpl. rewrite Hfn. simpl.
      rewrite Nat.add_0_r. repeat split; try done. lia.
    + set (w1 := World (w_log w ++ evs0 ++
                        [EvBeforeSleepLog seconds e; EvSleep seconds])
                       (w_fs w) (S (w_attempt_number w))).
      destruct (IH w1) as (failed & evs & wl & Hw & Hle & Hs & Hl & Hr & Hx).
      assert (Hstep : retry_loop seconds (S k) fn w
                      = retry_loop seconds k fn w1).
      { simpl. rewrite Hfn. unfold mbind, M_bind, next_attempt_number, emit.
        cbn [w_log w_fs w_attempt_number extend]. subst w1.
        by rewrite <- !app_assoc. }
      exists (S failed),
        (evs0 ++ [EvBeforeSleepLog seconds e; EvSleep seconds] ++ evs), wl.
      rewrite Hstep, Hw. subst w1. cbn [w_log w_fs w_attempt_number].
      split; [by rewrite <- !app_assoc, Nat.add_succ_r|].
      split; [lia|]. split.
      { unfold schedule in *. rewrite !omap_app, Hs0, Hs. done. }
      split; [by rewrite Hl, Hw|]. split; [done|].
      intros Hexn. by rewrite (Hx Hexn).
Qed.

End retry_loop_facts.

(** ** SupervisedLauncher: one attempt *)

Lemma emit_run ev w : emit ev w = (Ok tt, extend w [ev]).
Proof. reflexivity. Qed.

(** Without [check=True] the status of the child is handed back, never
    turned into an exception. *)
Lemma subprocess_run_unchecked E args w :
  subprocess_run E false args w
  = (match env_proc E (w_log w) args with
     | Exited rc => Ok rc
     | Raised e => Exn e
     end, extend w [EvRun args]).
Proof. unfold subprocess_run. by destruct (env_proc E (w_log w) args). Qed.

Section attempt.

Context (E : env) (is_sx1302 : bool).
Context (spi_bus sx1302_lora_pkt_fwd_filepath sx1301_lora_pkt_fwd_dir
         sx1301_reset_lgw_filepath sx1302_reset_lgw_filepath : string).
Context (reset_lgw_pin : Z).

Let script := reset_script is_sx1302 sx1301_reset_lgw_filepath
                sx1302_reset_lgw_filepath.
Let stop_cmd := reset_stop script reset_lgw_pin.
Let start_cmd := reset_start script reset_lgw_pin.
Let fwd := forwarder is_sx1302 spi_bus sx1302_lora_pkt_fwd_filepath
             sx1301_lora_pkt_fwd_dir.
Let dbg := reset_debug script reset_lgw_pin.
Let attempt := start_concentrator E is_sx1302 spi_bus
                 sx1302_lora_pkt_fwd_filepath sx1301_lora_pkt_fwd_dir
                 sx1301_reset_lgw_filepath sx1302_reset_lgw_filepath
                 reset_lgw_pin.

(** One attempt, step by step: each of the three runs either raises, which
    ends the attempt there, or exits with a status that nobody reads. *)
Lemma start_concentrator_run w :
  let h := w_log w in
  attempt w =
  match env_proc E (h ++ [dbg]) stop_cmd with
  | Raised e => (Exn e, extend w [dbg; EvRun stop_cmd])
  | Exited _ =>
      match env_proc E (h ++ [dbg; EvRun stop_cmd]) start_cmd with
      | Raised e => (Exn e, extend w [dbg; EvRun stop_cmd; EvRun start_cmd])
      | Exited _ =>
          match env_proc E (h ++ [dbg; EvRun stop_cmd; EvRun start_cmd])
                  [fwd] with
          | Raised e =>
              (Exn e, extend w [dbg; EvRun stop_cmd; EvRun start_cmd;
                                EvRun [fwd]])
          | Exited _ =>
              (Ok tt, extend w [dbg; EvRun stop_cmd; EvRun start_cmd;
                                EvRun [fwd]])
          end
      end
  end.
Proof.
  intros h. subst attempt h.
  unfold start_concentrator, run_reset_lgw, LOGGER_debug.
  fold (reset_script is_sx1302 sx1301_reset_lgw_filepath
          sx1302_reset_lgw_filepath). fold script.
  fold (reset_debug script reset_lgw_pin). fold dbg.
  fold (reset_stop script reset_lgw_pin). fold stop_cmd.
  fold (reset_start script reset_lgw_pin). fold start_cmd.
  assert (Hfwd : (if is_sx1302
                  then subprocess_run E false [sx1302_lora_pkt_fwd_filepath];;
                       mret tt
                  else subprocess_run E false
                         [sx1301_lora_pkt_fwd_dir +:+ "/lora_pkt_fwd_" +:+
                          spi_bus];; mret tt)
                 = (subprocess_run E false [fwd];; mret tt)).
  { subst fwd. unfold forwarder. by destruct is_sx1302. }
  rewrite Hfwd. clear Hfwd.
  unfold mbind, M_bind, mret, M_ret.
  rewrite emit_run. cbv beta iota.
  rewrite subprocess_run_unchecked, extend_extend, w_log_extend.
  cbn [app].
  destruct (env_proc E (w_log w ++ [dbg]) stop_cmd) as [rc1|e1]; [|done].
  rewrite subprocess_run_unchecked, extend_extend, w_log_extend.
  cbn [app].
  destruct (env_proc E (w_log w ++ [dbg; EvRun stop_cmd]) start_cmd)
    as [rc2|e2]; [|done].
  rewrite subprocess_run_unchecked, extend_extend, w_log_extend.
  cbn [app].
  by destruct (env_proc E (w_log w ++ [dbg; EvRun stop_cmd; EvRun start_cmd])
                 [fwd]) as [rc3|e3].
Qed.

Lemma mark_of_stop : mark_of stop_cmd (EvRun stop_cmd) = Some MReset.
Proof. unfold mark_of. by rewrite decide_True. Qed.

Lemma mark_of_start : mark_of stop_cmd (EvRun start_cmd) = None.
Proof. unfold mark_of. by rewrite decide_False. Qed.

Lemma mark_of_forwarder : mark_of stop_cmd (EvRun [fwd]) = None.
Proof. unfold mark_of. by rewrite decide_False. Qed.

(** Every attempt starts exactly one reset and never sleeps. *)
Lemma start_concentrator_one_reset w :
  ∃ evs, (attempt w).2 = extend w evs ∧ schedule stop_cmd evs = [MReset].
Proof.
  rewrite start_concentrator_run.
  destruct (env_proc E (w_log w ++ [dbg]) stop_cmd);
    [destruct (env_proc E (w_log w ++ [dbg; EvRun stop_cmd]) start_cmd);
       [destruct (env_proc E (w_log w ++ [dbg; EvRun stop_cmd;
                                         EvRun start_cmd]) [fwd])|]|];
    (eexists; split; [reflexivity|]);
    unfold schedule; cbn [omap list_omap];
    rewrite ?mark_of_stop, ?mark_of_start, ?mark_of_forwarder; done.
Qed.

(** The decorated function: from one to five attempts, [failed] of them
    failing before the last one, which is run from [wl] and decides. *)
Lemma retry_start_concentrator_run w :
  let run := retry_start_concentrator E is_sx1302 spi_bus
               sx1302_lora_pkt_fwd_filepath sx1301_lora_pkt_fwd_dir
               sx1301_reset_lgw_filepath sx1302_reset_lgw_filepath
               reset_lgw_pin w in
  ∃ (failed : nat) wl,
    w_attempt_number run.2 = S failed
    ∧ (failed ≤ 4)%nat
    ∧ schedule stop_cmd (events_since w run.2)
        = retry_schedule LORA_PKT_FWD_RETRY_SLEEP_SECONDS failed
    ∧ (attempt wl).2 = run.2
    ∧ run.1 = match (attempt wl).1 with
              | Ok a => Ok a
              | Exn e => Exn (RetryError e)
              end
    ∧ (is_exn (attempt wl).1 = true → failed = 4%nat).
Proof.
  intros run.
  set (w1 := World (w_log w) (w_fs w) 1).
  assert (Hrun : run = retry_loop LORA_PKT_FWD_RETRY_SLEEP_SECONDS 4
                         attempt w1) by done.
  destruct (retry_loop_run LORA_PKT_FWD_RETRY_SLEEP_SECONDS stop_cmd attempt
              start_concentrator_one_reset 4 w1)
    as (failed & evs & wl & Hw & Hle & Hs & Hl & Hr & Hx).
  rewrite <- Hrun in Hw, Hl, Hr.
  exists failed, wl. rewrite Hw. cbn [w_log w_fs w_attempt_number w1].
  unfold events_since. cbn [w_log]. rewrite drop_app_length.
  repeat split; try done. by rewrite Hl, Hw.
Qed.

(** C1: on every configuration, environment and world, the number of
    resets that [retry_start_concentrator] starts is the number of
    attempts it makes, which is at least 1 and at most
    [LORA_PKT_FWD_MAX_TRIES] = 5; it returns normally only when its
    last attempt did, and otherwise raises [RetryError] after the fifth
    attempt; so when every attempt fails, [RetryError] reaches the
    caller after five attempts. *)
Theorem retry_start_concentrator_bounded w :
  let run := retry_start_concentrator E is_sx1302 spi_bus
               sx1302_lora_pkt_fwd_filepath sx1301_lora_pkt_fwd_dir
               sx1301_reset_lgw_filepath sx1302_reset_lgw_filepath
               reset_lgw_pin w in
  let attempts := w_attempt_number run.2 in
  reset_invocations stop_cmd (events_since w run.2) = attempts
  ∧ (1 ≤ attempts ≤ LORA_PKT_FWD_MAX_TRIES)%nat
  ∧ (run.1 = Ok tt → ∃ wl, attempt wl = (Ok tt, run.2))
  ∧ (∀ e, run.1 = Exn e →
       ∃ e', e = RetryError e' ∧ attempts = LORA_PKT_FWD_MAX_TRIES)
  ∧ ((∀ w0, is_exn (attempt w0).1 = true) →
       ∃ e, run.1 = Exn (RetryError e) ∧ attempts = LORA_PKT_FWD_MAX_TRIES).
Proof.
  intros run attempts. subst attempts.
  destruct (retry_start_concentrator_run w)
    as (failed & wl & Hn & Hle & Hs & Hl & Hr & Hx).
  fold run in Hn, Hs, Hl, Hr. rewrite Hn.
  unfold reset_invocations, LORA_PKT_FWD_MAX_TRIES.
  rewrite Hs, reset_invocations_retry_schedule.
  split; [done|]. split; [lia|].
  destruct (attempt wl) as [r wl'] eqn:Hwl; simpl in Hl, Hr, Hx.
  subst wl'. rewrite Hr. destruct r as [[]|e0].
  - split; [by exists wl|]. split; [done|].
    intros Hall. specialize (Hall wl). by rewrite Hwl in Hall.
  - split; [done|]. rewrite (Hx eq_refl). split.
    + intros e [= <-]. by exists e0.
    + intros _. by exists e0.
Qed.

(** When the forwarder cannot be launched, the attempt fails, whatever
    the reset did. *)
Lemma start_concentrator_fails w :
  (∀ h, ∃ e, env_proc E h [fwd] = Raised e) →
  is_exn (attempt w).1 = true.
Proof.
  intros Hfwd. rewrite start_concentrator_run.
  destruct (env_proc E (w_log w ++ [dbg]) stop_cmd); [|done].
  destruct (env_proc E (w_log w ++ [dbg; EvRun stop_cmd]) start_cmd);
    [|done].
  by destruct (Hfwd (w_log w ++ [dbg; EvRun stop_cmd; EvRun start_cmd]))
    as [e ->].
Qed.

(** C2: with the constants of the module (5 tries, 2 seconds), when the
    launch of the forwarder raises at every attempt, the resets and the
    sleeps of [retry_start_concentrator] are, in this order: reset, sleep
    2, reset, sleep 2, reset, sleep 2, reset, sleep 2, reset.  That is 5
    resets and 4 sleeps of 2, one between two consecutive attempts, none
    before the first and none after the last; and the call raises
    [RetryError]. *)
Theorem retry_start_concentrator_exhausted w :
  let run := retry_start_concentrator E is_sx1302 spi_bus
               sx1302_lora_pkt_fwd_filepath sx1301_lora_pkt_fwd_dir
               sx1301_reset_lgw_filepath sx1302_reset_lgw_filepath
               reset_lgw_pin w in
  let evs := events_since w run.2 in
  (∀ h, ∃ e, env_proc E h [fwd] = Raised e) →
  schedule stop_cmd evs
    = [MReset; MSleep 2; MReset; MSleep 2; MReset; MSleep 2; MReset;
       MSleep 2; MReset]
  ∧ reset_invocations stop_cmd evs = 5%nat
  ∧ sleeps evs = [2; 2; 2; 2]
  ∧ w_attempt_number run.2 = 5%nat
  ∧ ∃ e, run.1 = Exn (RetryError e).
Proof.
  intros run evs Hfwd. subst evs.
  destruct (retry_start_concentrator_run w)
    as (failed & wl & Hn & Hle & Hs & Hl & Hr & Hx).
  fold run in Hn, Hs, Hl, Hr.
  pose proof (start_concentrator_fails wl Hfwd) as Hfail.
  rewrite (Hx Hfail) in Hn, Hs.
  rewrite (sleeps_schedule stop_cmd). unfold reset_invocations.
  rewrite Hs, Hn. repeat split; try done.
  rewrite Hr. destruct (attempt wl).1 as [a|e]; [done|]. by exists e.
Qed.

(** C8, as the code has it: an attempt fails exactly when one of its runs
    raises, be it a run of the reset script or the run of the forwarder.
    When none raises, whatever the three exit statuses are, the attempt
    returns normally after the four events below, and the retry loop that
    made the attempt returns with it: no sleep, no further attempt. *)
Theorem start_concentrator_fails_iff_raised w :
  let run := attempt w in
  let evs := events_since w run.2 in
  (is_exn run.1 = true ↔ raised_runs E (w_log w) evs ≠ [])
  ∧ (raised_runs E (w_log w) evs = [] →
       run = (Ok tt, extend w [dbg; EvRun stop_cmd; EvRun start_cmd;
                               EvRun [fwd]])
       ∧ ∀ seconds remaining,
           retry_loop seconds remaining attempt w = run).
Proof.
  intros run evs. subst evs run.
  assert (Hloop : ∀ w', attempt w = (Ok tt, w') →
            ∀ seconds remaining,
              retry_loop seconds remaining attempt w = (Ok tt, w')).
  { intros w' Hok seconds remaining.
    by rewrite retry_loop_unfold, Hok. }
  revert Hloop. rewrite start_concentrator_run.
  destruct (env_proc E (w_log w ++ [dbg]) stop_cmd) as [rc1|e1] eqn:H1;
    [destruct (env_proc E (w_log w ++ [dbg; EvRun stop_cmd]) start_cmd)
       as [rc2|e2] eqn:H2;
     [destruct (env_proc E (w_log w ++ [dbg; EvRun stop_cmd;
                                        EvRun start_cmd]) [fwd])
        as [rc3|e3] eqn:H3|]|];
    intros Hloop; cbn [fst snd]; rewrite events_since_extend;
    cbn [raised_runs]; rewrite <- ?app_assoc; cbn [app];
    rewrite ?H1, ?H2, ?H3; cbn [app].
  - split; [split; [done|by intros []]|]. intros _. split; [done|].
    by apply Hloop.
  - split; [by split|done].
  - split; [by split|done].
  - split; [by split|done].
Qed.

(** C9, as the code has it.  A reset script that fails by its exit status
    is not noticed: when both runs of the script return, whatever their
    statuses, the attempt goes on to launch the forwarder and its result
    is that of the launch alone.  A run of the script that itself raises
    ends the attempt with that exception before any launch.  Either way a
    failed attempt that may be followed by another takes one and the same
    path: the log line, the sleep, the next attempt. *)
Theorem reset_failure_in_attempt w :
  let h := w_log w in
  let run := attempt w in
  let evs := events_since w run.2 in
  (∀ rc_stop rc_start,
     env_proc E (h ++ [dbg]) stop_cmd = Exited rc_stop →
     env_proc E (h ++ [dbg; EvRun stop_cmd]) start_cmd = Exited rc_start →
     evs = [dbg; EvRun stop_cmd; EvRun start_cmd; EvRun [fwd]]
     ∧ run.1 = match env_proc E (h ++ [dbg; EvRun stop_cmd; EvRun start_cmd])
                       [fwd] with
               | Exited _ => Ok tt
               | Raised e => Exn e
               end)
  ∧ (∀ e,
       env_proc E (h ++ [dbg]) stop_cmd = Raised e
       ∨ (∃ rc_stop, env_proc E (h ++ [dbg]) stop_cmd = Exited rc_stop
                     ∧ env_proc E (h ++ [dbg; EvRun stop_cmd]) start_cmd
                       = Raised e) →
       run.1 = Exn e ∧ EvRun [fwd] ∉ evs)
  ∧ (∀ e seconds remaining,
       run.1 = Exn e →
       retry_loop seconds (S remaining) attempt w
       = retry_loop seconds remaining attempt
           (World (w_log run.2 ++
                   [EvBeforeSleepLog seconds e; EvSleep seconds])
                  (w_fs run.2) (S (w_attempt_number run.2)))).
Proof.
  intros h run evs. subst evs h.
  assert (Hloop : ∀ e seconds remaining,
            run.1 = Exn e →
            retry_loop seconds (S remaining) attempt w
            = retry_loop seconds remaining attempt
                (World (w_log run.2 ++
                        [EvBeforeSleepLog seconds e; EvSleep seconds])
                       (w_fs run.2) (S (w_attempt_number run.2)))).
  { intros e seconds remaining Hexn. subst run.
    rewrite (retry_loop_unfold seconds (S remaining)).
    destruct (attempt w) as [r w'] eqn:Hrun. simpl in Hexn. by subst r. }
  split; [|split; [|exact Hloop]]; clear Hloop; subst run;
    rewrite start_concentrator_run.
  - intros rc_stop rc_start -> ->.
    by destruct (env_proc E (w_log w ++ [dbg; EvRun stop_cmd;
                                         EvRun start_cmd]) [fwd]);
      cbn [fst snd]; rewrite events_since_extend.
  - intros e [-> | (rc_stop & -> & ->)];
      cbn [fst snd]; rewrite events_since_extend; (split; [done|]);
      rewrite !not_elem_of_cons; repeat split; try done;
      apply not_elem_of_nil.
Qed.

End attempt.

(** ** SupervisedLauncher: concrete runs *)

(** A launch that succeeds at the third attempt: three resets, two
    sleeps, a normal return. *)
Example retry_start_concentrator_third_attempt :
  let run := retry_start_concentrator (env_late "/opt/fwd" 2) true
               "spidev1.2" "/opt/fwd" "/opt/sx1301" "/r1.sh" "/r2.sh" 17
               (World [] ∅ 0) in
  run.1 = Ok tt
  ∧ schedule ["/r2.sh"; "stop"; "17"] (w_log run.2)
    = [MReset; MSleep 2; MReset; MSleep 2; MReset]
  ∧ w_attempt_number run.2 = 3%nat.
Proof. vm_compute. done. Qed.

Lemma retry_start_concentrator_bounded_witness :
  let E := env_missing ["/opt/fwd"] 0 in
  let w := World [] ∅ 0 in
  let run := retry_start_concentrator E true "spidev1.2" "/opt/fwd"
               "/opt/sx1301" "/r1.sh" "/r2.sh" 17 w in
  reset_invocations ["/r2.sh"; "stop"; "17"] (events_since w run.2) = 5%nat
  ∧ ∃ e, run.1 = Exn (RetryError e)
         ∧ w_attempt_number run.2 = LORA_PKT_FWD_MAX_TRIES.
Proof.
  intros E w run.
  destruct (retry_start_concentrator_bounded E true "spidev1.2" "/opt/fwd"
              "/opt/sx1301" "/r1.sh" "/r2.sh" 17 w)
    as (Hresets & _ & _ & _ & Hall).
  split.
  - etrans; [exact Hresets | reflexivity].
  - apply Hall. intros w0. apply start_concentrator_fails.
    intros h. eexists. reflexivity.
Defined.

Lemma retry_start_concentrator_exhausted_witness :
  let E := env_missing ["/opt/sx1301/lora_pkt_fwd_spidev1.2"] 0 in
  let w := World [] ∅ 0 in
  let run := retry_start_concentrator E false "spidev1.2" "/opt/fwd"
               "/opt/sx1301" "/r1.sh" "/r2.sh" 17 w in
  let evs := events_since w run.2 in
  schedule ["/r1.sh"; "stop"; "17"] evs
    = [MReset; MSleep 2; MReset; MSleep 2; MReset; MSleep 2; MReset;
       MSleep 2; MReset]
  ∧ reset_invocations ["/r1.sh"; "stop"; "17"] evs = 5%nat
  ∧ sleeps evs = [2; 2; 2; 2]
  ∧ w_attempt_number run.2 = 5%nat
  ∧ ∃ e, run.1 = Exn (RetryError e).
Proof.
  intros E w run evs.
  apply (retry_start_concentrator_exhausted E false "spidev1.2" "/opt/fwd"
           "/opt/sx1301" "/r1.sh" "/r2.sh" 17 w).
  intros h. eexists. reflexivity.
Defined.

(** C8 as the specification states it fails: with the reset script
    missing the attempt fails, and yet no run of the forwarder raised:
    the forwarder was not run at all. *)
Lemma start_concentrator_fails_without_forwarder :
  let E := env_missing ["/r2.sh"] 0 in
  let w := World [] ∅ 1 in
  let run := start_concentrator E true "spidev1.2" "/opt/fwd" "/opt/sx1301"
               "/r1.sh" "/r2.sh" 17 w in
  ¬ (is_exn run.1 = true
     ↔ ["/opt/fwd"] ∈ raised_runs E (w_log w) (events_since w run.2)).
Proof.
  intros E w run [Hfails _]. specialize (Hfails eq_refl).
  vm_compute in Hfails.
  apply list_elem_of_singleton in Hfails. discriminate.
Qed.

Lemma start_concentrator_fails_iff_raised_witness :
  let E := env_missing [] 3 in
  let w := World [] ∅ 1 in
  let run := start_concentrator E false "spidev1.2" "/opt/fwd" "/opt/sx1301"
               "/r1.sh" "/r2.sh" 17 w in
  run = (Ok tt, World [EvDebug "Executing /r1.sh with reset pin 17";
                       EvRun ["/r1.sh"; "stop"; "17"];
                       EvRun ["/r1.sh"; "start"; "17"];
                       EvRun ["/opt/sx1301/lora_pkt_fwd_spidev1.2"]] ∅ 1)
  ∧ ∀ seconds remaining,
      retry_loop seconds remaining
        (start_concentrator E false "spidev1.2" "/opt/fwd" "/opt/sx1301"
           "/r1.sh" "/r2.sh" 17) w = run.
Proof.
  intros E w run.
  apply (proj2 (start_concentrator_fails_iff_raised E false "spidev1.2"
                  "/opt/fwd" "/opt/sx1301" "/r1.sh" "/r2.sh" 17 w)).
  reflexivity.
Defined.

(** C9 as the specification states it fails: the "start" run of the reset
    script raises, and the attempt does not reach the launch. *)
Lemma reset_raises_launch_not_reached :
  let E := Env (λ _ args, if decide (args !! 1%nat = Some "start")
                          then Raised (PermissionError "/r1.sh")
                          else Exited 0)
               (λ _, true) (λ _, None) (λ _, "") in
  let w := World [] ∅ 1 in
  let run := start_concentrator E false "spidev1.2" "/opt/fwd" "/opt/sx1301"
               "/r1.sh" "/r2.sh" 17 w in
  let evs := events_since w run.2 in
  ¬ (["/r1.sh"; "start"; "17"] ∈ raised_runs E (w_log w) evs →
     EvRun ["/opt/sx1301/lora_pkt_fwd_spidev1.2"] ∈ evs).
Proof.
  intros E w run evs Hreach.
  assert (Hraised : ["/r1.sh"; "start"; "17"]
                    ∈ raised_runs E (w_log w) evs)
    by (vm_compute; apply list_elem_of_singleton; reflexivity).
  specialize (Hreach Hraised). vm_compute in Hreach.
  repeat (apply elem_of_cons in Hreach as [Hreach|Hreach];
          [discriminate|]).
  by apply elem_of_nil in Hreach.
Qed.

Lemma reset_failure_in_attempt_witness :
  let E := env_missing [] 1 in
  let E' := env_missing ["/r2.sh"] 0 in
  let w := World [] ∅ 1 in
  let run := start_concentrator E true "spidev1.2" "/opt/fwd" "/opt/sx1301"
               "/r1.sh" "/r2.sh" 17 w in
  let run' := start_concentrator E' true "spidev1.2" "/opt/fwd"
                "/opt/sx1301" "/r1.sh" "/r2.sh" 17 w in
  (events_since w run.2
     = [EvDebug "Executing /r2.sh with reset pin 17";
        EvRun ["/r2.sh"; "stop"; "17"]; EvRun ["/r2.sh"; "start"; "17"];
        EvRun ["/opt/fwd"]]
   ∧ run.1 = Ok tt)
  ∧ (run'.1 = Exn (FileNotFoundError "/r2.sh")
     ∧ EvRun ["/opt/fwd"] ∉ events_since w run'.2).
Proof.
  intros E E' w run run'. split.
  - apply (proj1 (reset_failure_in_attempt E true "spidev1.2" "/opt/fwd"
                    "/opt/sx1301" "/r1.sh" "/r2.sh" 17 w) 1 1);
      reflexivity.
  - apply (proj1 (proj2 (reset_failure_in_attempt E' true "spidev1.2"
                           "/opt/fwd" "/opt/sx1301" "/r1.sh" "/r2.sh" 17 w))).
    left. reflexivity.
Defined.

(** * Further properties *)

(** ** write_diagnostics *)

(** The file is opened, which empties it, and then written once. *)
Lemma write_diagnostics_run E path is_running w :
  write_diagnostics E path is_running w
  = if env_writable E path
    then (Ok tt, World (w_log w)
                   (<[path := if is_running then "true" else "false"]>
                      (w_fs w))
                   (w_attempt_number w))
    else (Exn (PermissionError path), w).
Proof.
  unfold write_diagnostics, mbind, M_bind, open_w, file_write.
  destruct (env_writable E path); [|done].
  destruct is_running; cbn [w_log w_fs w_attempt_number];
    by rewrite lookup_insert_eq, insert_insert_eq.
Qed.

(** X1: when the diagnostics file can be opened, [write_diagnostics]
    leaves in it exactly the text [true] or [false], whatever it held
    before, so that the file reads [true] exactly when the flag was set;
    no other file changes and nothing is logged. *)
Theorem write_diagnostics_content E path is_running w :
  let run := write_diagnostics E path is_running w in
  env_writable E path = true →
  run.1 = Ok tt
  ∧ w_fs run.2 !! path = Some (if is_running then "true" else "false")
  ∧ (w_fs run.2 !! path = Some "true" ↔ is_running = true)
  ∧ (∀ p, p ≠ path → w_fs run.2 !! p = w_fs w !! p)
  ∧ w_log run.2 = w_log w.
Proof.
  intros run Hw. subst run. rewrite write_diagnostics_run, Hw.
  cbn [fst snd w_fs w_log]. rewrite lookup_insert_eq.
  split; [done|]. split; [done|]. split; [|split; [|done]].
  - destruct is_running; split; intros; by simplify_eq.
  - intros p Hp. by rewrite lookup_insert_ne.
Qed.

Lemma write_diagnostics_content_witness :
  let E := env_missing [] 0 in
  let w := World [] {[ "/var/data/diagnostics" := "false, since yesterday" ]}
                 0 in
  let run := write_diagnostics E "/var/data/diagnostics" true w in
  run.1 = Ok tt
  ∧ w_fs run.2 !! "/var/data/diagnostics" = Some "true".
Proof.
  intros E w run.
  destruct (write_diagnostics_content E "/var/data/diagnostics" true w)
    as (Hok & Hfile & _); [reflexivity|].
  split; [exact Hok | exact Hfile].
Defined.

(** X2: of two calls of [write_diagnostics] on one path the second
    decides: the files and the result are those of the second call
    alone; the two texts are never found one after the other. *)
Theorem write_diagnostics_last_wins E path first second w :
  let twice := (write_diagnostics E path first;;
                write_diagnostics E path second) w in
  let once := write_diagnostics E path second w in
  twice.1 = once.1 ∧ w_fs twice.2 = w_fs once.2.
Proof.
  intros twice once. subst twice once. unfold mbind, M_bind.
  rewrite !write_diagnostics_run.
  destruct (env_writable E path) eqn:Hw; [|done].
  rewrite write_diagnostics_run, Hw. cbn [fst snd w_fs].
  by rewrite insert_insert_eq.
Qed.

(** ** ConfigMaterializer: failures, frame, repetition *)

(** The generation-A materializer, case by case. *)
Lemma replace_sx1301_cases E (T : gmap string string)
    root_dir sx1301_region_configs_dir region w :
  replace_sx1301_global_conf_with_regional E T root_dir
    sx1301_region_configs_dir region w
  = match T !! region with
    | None => (Exn (KeyError region), w)
    | Some filename =>
        let src := sx1301_region_configs_dir +:+ "/" +:+ filename in
        let dst := root_dir +:+ "/global_conf.json" in
        let w1 := extend w [EvDebug ("Copying SX1301 conf from " +:+ src +:+
                                     " to " +:+ dst)] in
        match w_fs w !! src with
        | None => (Exn (FileNotFoundError src), w1)
        | Some text =>
            if decide (src = dst) then (Exn SameFileError, w1)
            else if env_writable E dst
                 then (Ok tt, World (w_log w1) (<[dst := text]> (w_fs w))
                                    (w_attempt_number w))
                 else (Exn (PermissionError dst), w1)
        end
    end.
Proof.
  destruct (T !! region) as [filename|] eqn:HT.
  - cbv zeta.
    destruct (w_fs w !! (sx1301_region_configs_dir +:+ "/" +:+ filename))
      as [text|] eqn:Hsrc.
    + by rewrite (replace_sx1301_run E T root_dir sx1301_region_configs_dir
                    region filename text w HT Hsrc).
    + unfold replace_sx1301_global_conf_with_regional, mbind, M_bind,
        get_region_filename. rewrite HT. unfold LOGGER_debug, emit, copyfile.
      cbn [w_log w_fs w_attempt_number]. rewrite Hsrc.
      rewrite bool_decide_eq_false_2 by (by intros [? ?]). cbn [andb].
      unfold mbind, M_bind, read_file. cbn [w_fs]. by rewrite Hsrc.
  - unfold replace_sx1301_global_conf_with_regional, mbind, M_bind,
      get_region_filename. by rewrite HT.
Qed.

(** The generation-B materializer, case by case. *)
Lemma replace_sx1302_cases E (T : gmap string string)
    sx1302_region_configs_dir region spi_bus w :
  replace_sx1302_global_conf_with_regional E T sx1302_region_configs_dir
    region spi_bus w
  = match T !! region with
    | None => (Exn (KeyError region), w)
    | Some filename =>
        let src := sx1302_region_configs_dir +:+ "/" +:+ filename in
        let dst := sx1302_region_configs_dir +:+ "/global_conf.json" in
        match w_fs w !! src with
        | None => (Exn (FileNotFoundError src), w)
        | Some text =>
            match json_loads E text with
            | None => (Exn JSONDecodeError, w)
            | Some v =>
                match inject_com_dir v (JStr ("/dev/" +:+ spi_bus)) with
                | Exn e => (Exn e, w)
                | Ok v' =>
                    if env_writable E dst
                    then (Ok tt, World (w_log w)
                                   (<[dst := json_dumps E v']> (w_fs w))
                                   (w_attempt_number w))
                    else (Exn (PermissionError dst), w)
                end
            end
        end
    end.
Proof.
  destruct (T !! region) as [filename|] eqn:HT; cbv zeta.
  - destruct (w_fs w !! (sx1302_region_configs_dir +:+ "/" +:+ filename))
      as [text|] eqn:Hsrc;
      [destruct (json_loads E text) as [v|] eqn:Hv|].
    + rewrite (replace_sx1302_run E T sx1302_region_configs_dir region
                 spi_bus filename text v w HT Hsrc Hv).
      destruct (inject_com_dir v (JStr ("/dev/" +:+ spi_bus))) as [v'|e];
        [|done].
      unfold json_dump.
      destruct (env_writable E (sx1302_region_configs_dir +:+
                                "/global_conf.json")) eqn:Hw.
      * by apply write_whole_file.
      * unfold mbind, M_bind, open_w. by rewrite Hw.
    + unfold replace_sx1302_global_conf_with_regional, mbind, M_bind,
        get_region_filename. rewrite HT.
      unfold json_load, mbind, M_bind, read_file. by rewrite Hsrc, Hv.
    + unfold replace_sx1302_global_conf_with_regional, mbind, M_bind,
        get_region_filename. rewrite HT.
      unfold json_load, mbind, M_bind, read_file. by rewrite Hsrc.
  - unfold replace_sx1302_global_conf_with_regional, mbind, M_bind,
      get_region_filename. by rewrite HT.
Qed.




Lemma dict_set_set {V} k (x y : V) d :
  dict_set k y (dict_set k x d) = dict_set k y d.
Proof.
  induction d as [|[k0 v] d IH]; simpl.
  - by rewrite decide_True.
  - destruct (decide (k = k0)) as [->|Hk]; simpl.
    + by rewrite decide_True.
    + rewrite decide_False by done. by rewrite IH.
Qed.

(** The injection succeeds on the objects that hold an object under
    [SX130x_conf], and on nothing else. *)
Lemma inject_com_dir_Ok v value v' :
  inject_com_dir v value = Ok v' ↔
  ∃ d sub, v = JDict d ∧ dict_get "SX130x_conf" d = Some (JDict sub)
           ∧ v' = JDict (dict_set "SX130x_conf"
                           (JDict (dict_set "com_dir" value sub)) d).
Proof.
  split.
  - unfold inject_com_dir, py_getitem.
    destruct v as [| | | | | |d]; try done.
    destruct (dict_get "SX130x_conf" d) as [x|] eqn:Hx; [|done].
    destruct x as [| | | | | |sub]; try done.
    simpl. intros [= <-]. by exists d, sub.
  - intros (d & sub & -> & Hsub & ->). by apply inject_com_dir_dict.
Qed.

(** X5: the generation-A materializer returns normally only if the
    region is in the table, its template exists, the path of the template
    is not the path of the destination, and the destination can be
    opened for writing: when one of the four is missing, it raises. *)
Theorem replace_sx1301_succeeds_only_if E (T : gmap string string)
    root_dir sx1301_region_configs_dir region w :
  let dst := root_dir +:+ "/global_conf.json" in
  (replace_sx1301_global_conf_with_regional E T root_dir
     sx1301_region_configs_dir region w).1 = Ok tt →
  ∃ filename,
    T !! region = Some filename
    ∧ is_Some (w_fs w !! (sx1301_region_configs_dir +:+ "/" +:+ filename))
    ∧ sx1301_region_configs_dir +:+ "/" +:+ filename ≠ dst
    ∧ env_writable E dst = true.
Proof.
  intros dst. rewrite replace_sx1301_cases. cbv zeta. fold dst.
  destruct (T !! region) as [filename|] eqn:HT; [|done].
  destruct (w_fs w !! (sx1301_region_configs_dir +:+ "/" +:+ filename))
    as [text|] eqn:Hsrc; [|done].
  destruct (decide (sx1301_region_configs_dir +:+ "/" +:+ filename = dst))
    as [Heq|Hne]; [done|].
  destruct (env_writable E dst) eqn:Hw; [|done].
  intros _. exists filename. rewrite Hsrc. by eauto.
Qed.

Lemma replace_sx1301_succeeds_only_if_witness :
  let T : gmap string string := {[ "EU868" := "EU-global_conf.json" ]} in
  let E := Env (λ _ _, Exited 0) (λ _, true) (λ _, None) (λ _, "") in
  let w := World [] {[ "/cfg/EU-global_conf.json" := "template" ]} 0 in
  ∃ filename,
    T !! "EU868" = Some filename
    ∧ is_Some (w_fs w !! ("/cfg" +:+ "/" +:+ filename))
    ∧ "/cfg" +:+ "/" +:+ filename ≠ "/opt" +:+ "/global_conf.json"
    ∧ env_writable E ("/opt" +:+ "/global_conf.json") = true.
Proof.
  intros T E w.
  apply (replace_sx1301_succeeds_only_if E T "/opt" "/cfg" "EU868" w).
  reflexivity.
Defined.


(** X7: materializing generation A twice is materializing it once: the
    second call returns what the first returned and leaves the files
    that the first left. *)
Theorem replace_sx1301_twice E (T : gmap string string)
    root_dir sx1301_region_configs_dir region w :
  let f := replace_sx1301_global_conf_with_regional E T root_dir
             sx1301_region_configs_dir region in
  ((f;; f) w).1 = (f w).1 ∧ w_fs ((f;; f) w).2 = w_fs (f w).2.
Proof.
  intros f. subst f. unfold mbind, M_bind.
  rewrite (replace_sx1301_cases E T root_dir sx1301_region_configs_dir
             region w). cbv zeta.
  destruct (T !! region) as [filename|] eqn:HT; [|done].
  destruct (w_fs w !! (sx1301_region_configs_dir +:+ "/" +:+ filename))
    as [text|] eqn:Hsrc; [|done].
  destruct (decide (sx1301_region_configs_dir +:+ "/" +:+ filename
                    = root_dir +:+ "/global_conf.json")) as [Heq|Hne];
    [done|].
  destruct (env_writable E (root_dir +:+ "/global_conf.json")) eqn:Hw;
    [|done].
  rewrite replace_sx1301_cases, HT. cbv zeta. cbn [w_fs].
  rewrite lookup_insert_ne, Hsrc by done.
  rewrite decide_False, Hw by done. cbn [fst snd w_fs].
  by rewrite insert_insert_eq.
Qed.

(** X8: for a region whose template is not named [global_conf.json],
    materializing generation B twice is materializing it once: the
    second call returns what the first returned and leaves the files
    that the first left. *)
Theorem replace_sx1302_twice E (T : gmap string string)
    sx1302_region_configs_dir region spi_bus w :
  let f := replace_sx1302_global_conf_with_regional E T
             sx1302_region_configs_dir region spi_bus in
  T !! region ≠ Some "global_conf.json" →
  ((f;; f) w).1 = (f w).1 ∧ w_fs ((f;; f) w).2 = w_fs (f w).2.
Proof.
  intros f Hname. subst f. unfold mbind, M_bind.
  rewrite (replace_sx1302_cases E T sx1302_region_configs_dir region
             spi_bus w). cbv zeta.
  destruct (T !! region) as [filename|] eqn:HT; [|done].
  assert (Hne : sx1302_region_configs_dir +:+ "/global_conf.json"
                ≠ sx1302_region_configs_dir +:+ "/" +:+ filename).
  { intros Heq. apply Hname. f_equal.
    apply (inj (String.app sx1302_region_configs_dir)) in Heq.
    by injection Heq. }
  destruct (w_fs w !! (sx1302_region_configs_dir +:+ "/" +:+ filename))
    as [text|] eqn:Hsrc; [|done].
  destruct (json_loads E text) as [v|] eqn:Hv; [|done].
  destruct (inject_com_dir v (JStr ("/dev/" +:+ spi_bus))) as [v'|e] eqn:Hi;
    [|done].
  destruct (env_writable E (sx1302_region_configs_dir +:+
                            "/global_conf.json")) eqn:Hw; [|done].
  rewrite replace_sx1302_cases, HT. cbv zeta. cbn [w_fs].
  rewrite lookup_insert_ne, Hsrc, Hv, Hi, Hw by done. cbn [fst snd w_fs].
  by rewrite insert_insert_eq.
Qed.

Lemma replace_sx1302_twice_witness :
  let T : gmap string string := {[ "US915" := "US-global_conf.json" ]} in
  let tmpl := JDict [("SX130x_conf", JDict [("com_dir", JStr "/dev/null")])] in
  let E := Env (λ _ _, Exited 0) (λ _, true)
               (λ text, if decide (text = "template") then Some tmpl
                        else None)
               (λ v, match py_getitem v "SX130x_conf" with
                     | Ok (JDict [(_, JStr s)]) => "com_dir=" +:+ s
                     | _ => "?"
                     end) in
  let w := World [] {[ "/cfg/US-global_conf.json" := "template" ]} 0 in
  let f := replace_sx1302_global_conf_with_regional E T "/cfg" "US915"
             "spidev1.2" in
  ((f;; f) w).1 = (f w).1 ∧ w_fs ((f;; f) w).2 = w_fs (f w).2.
Proof.
  intros T tmpl E w f.
  apply (replace_sx1302_twice E T "/cfg" "US915" "spidev1.2" w).
  discriminate.
Defined.

(** X9: the bus injected last decides.  Injecting [y] into a document
    into which [x] was injected gives what injecting [y] into the
    original document gives; so injecting the same bus again changes
    nothing. *)
Theorem inject_com_dir_last_wins v v' x y :
  inject_com_dir v x = Ok v' →
  inject_com_dir v' y = inject_com_dir v y
  ∧ inject_com_dir v' x = Ok v'.
Proof.
  intros Hx.
  assert (Hlast : ∀ z, inject_com_dir v' z = inject_com_dir v z).
  { intros z. apply inject_com_dir_Ok in Hx as (d & sub & -> & Hsub & ->).
    rewrite (inject_com_dir_dict d sub z Hsub).
    rewrite (inject_com_dir_dict _ (dict_set "com_dir" x sub) z)
      by apply dict_get_set_eq.
    by rewrite !dict_set_set. }
  split; [apply Hlast|]. by rewrite Hlast.
Qed.

Lemma inject_com_dir_last_wins_witness :
  let v := JDict [("SX130x_conf", JDict [("com_type", JStr "SPI")]);
                  ("gateway_conf", JDict [])] in
  let v' := JDict [("SX130x_conf",
                    JDict [("com_type", JStr "SPI");
                           ("com_dir", JStr "/dev/spidev0.0")]);
                   ("gateway_conf", JDict [])] in
  inject_com_dir v' (JStr "/dev/spidev1.2")
  = inject_com_dir v (JStr "/dev/spidev1.2")
  ∧ inject_com_dir v' (JStr "/dev/spidev0.0") = Ok v'.
Proof.
  intros v v'.
  apply (inject_com_dir_last_wins v v' (JStr "/dev/spidev0.0")
           (JStr "/dev/spidev1.2")).
  reflexivity.
Defined.

(** ** ConcentratorResetter *)

(** [run_reset_lgw], case by case. *)
Lemma run_reset_lgw_cases E is_sx1302 sx1301_reset_lgw_filepath
    sx1302_reset_lgw_filepath reset_lgw_pin w :
  let script := reset_script is_sx1302 sx1301_reset_lgw_filepath
                  sx1302_reset_lgw_filepath in
  let dbg := reset_debug script reset_lgw_pin in
  let stop_cmd := reset_stop script reset_lgw_pin in
  let start_cmd := reset_start script reset_lgw_pin in
  run_reset_lgw E is_sx1302 sx1301_reset_lgw_filepath
    sx1302_reset_lgw_filepath reset_lgw_pin w
  = match env_proc E (w_log w ++ [dbg]) stop_cmd with
    | Raised e => (Exn e, extend w [dbg; EvRun stop_cmd])
    | Exited _ =>
        match env_proc E (w_log w ++ [dbg; EvRun stop_cmd]) start_cmd with
        | Raised e => (Exn e, extend w [dbg; EvRun stop_cmd; EvRun start_cmd])
        | Exited _ => (Ok tt, extend w [dbg; EvRun stop_cmd; EvRun start_cmd])
        end
    end.
Proof.
  intros script dbg stop_cmd start_cmd.
  unfold run_reset_lgw, LOGGER_debug.
  fold (reset_script is_sx1302 sx1301_reset_lgw_filepath
          sx1302_reset_lgw_filepath). fold script.
  fold (reset_debug script reset_lgw_pin). fold dbg.
  fold (reset_stop script reset_lgw_pin). fold stop_cmd.
  fold (reset_start script reset_lgw_pin). fold start_cmd.
  unfold mbind, M_bind, mret, M_ret.
  rewrite emit_run. cbv beta iota.
  rewrite subprocess_run_unchecked, extend_extend, w_log_extend. cbn [app].
  destruct (env_proc E (w_log w ++ [dbg]) stop_cmd) as [rc1|e1]; [|done].
  rewrite subprocess_run_unchecked, extend_extend, w_log_extend. cbn [app].
  by destruct (env_proc E (w_log w ++ [dbg; EvRun stop_cmd]) start_cmd).
Qed.

(** C7 as the specification states it fails: with the reset script
    missing, [run_reset_lgw] runs the script once, not twice: the run
    with "stop" raises and the run with "start" is not made. *)
Lemma run_reset_lgw_runs_once :
  let E := env_missing ["/opt/sx1302/reset_lgw.sh"] 0 in
  let w := World [] ∅ 0 in
  let run := run_reset_lgw E true "/opt/sx1301/reset_lgw.sh"
               "/opt/sx1302/reset_lgw.sh" 17 w in
  ¬ (runs (events_since w run.2)
     = [["/opt/sx1302/reset_lgw.sh"; "stop"; "17"];
        ["/opt/sx1302/reset_lgw.sh"; "start"; "17"]]).
Proof. intros E w run Hruns. vm_compute in Hruns. discriminate. Qed.

(** C7, as the code has it.  Whatever the generation and the pin,
    [run_reset_lgw] logs and runs the script of the generation with
    "stop" and [str pin].  When that run returns, with whatever status,
    it runs the same script with "start" and the same [str pin] and
    nothing else: two runs, in this order; and when the second returns
    too, with whatever status, [run_reset_lgw] returns normally: no
    status is looked at.  When the run with "stop" raises, it is the only
    run and its exception leaves [run_reset_lgw]. *)
Theorem run_reset_lgw_invocations E is_sx1302 sx1301_reset_lgw_filepath
    sx1302_reset_lgw_filepath reset_lgw_pin w :
  let script := reset_script is_sx1302 sx1301_reset_lgw_filepath
                  sx1302_reset_lgw_filepath in
  let stop_cmd := [script; "stop"; str reset_lgw_pin] in
  let start_cmd := [script; "start"; str reset_lgw_pin] in
  let dbg := reset_debug script reset_lgw_pin in
  let run := run_reset_lgw E is_sx1302 sx1301_reset_lgw_filepath
               sx1302_reset_lgw_filepath reset_lgw_pin w in
  let evs := events_since w run.2 in
  (∃ rest, runs evs = stop_cmd :: rest)
  ∧ (∀ rc_stop,
       env_proc E (w_log w ++ [dbg]) stop_cmd = Exited rc_stop →
       evs = [dbg; EvRun stop_cmd; EvRun start_cmd]
       ∧ runs evs = [stop_cmd; start_cmd]
       ∧ (∀ rc_start,
            env_proc E (w_log w ++ [dbg; EvRun stop_cmd]) start_cmd
              = Exited rc_start →
            run.1 = Ok tt)
       ∧ (∀ e,
            env_proc E (w_log w ++ [dbg; EvRun stop_cmd]) start_cmd
              = Raised e →
            run.1 = Exn e))
  ∧ (∀ e,
       env_proc E (w_log w ++ [dbg]) stop_cmd = Raised e →
       evs = [dbg; EvRun stop_cmd]
       ∧ runs evs = [stop_cmd]
       ∧ run.1 = Exn e).
Proof.
  intros script stop_cmd start_cmd dbg run evs. subst evs run.
  rewrite run_reset_lgw_cases. fold script dbg.
  change (reset_stop script reset_lgw_pin) with stop_cmd.
  change (reset_start script reset_lgw_pin) with start_cmd.
  destruct (env_proc E (w_log w ++ [dbg]) stop_cmd) as [rc1|e1];
    [destruct (env_proc E (w_log w ++ [dbg; EvRun stop_cmd]) start_cmd)
       as [rc2|e2]|];
    cbn [fst snd]; rewrite events_since_extend.
  - split; [by eexists|]. split; [|done]. intros rc_stop _.
    split; [done|]. split; [done|]. split; [done|]. done.
  - split; [by eexists|]. split; [|done]. intros rc_stop _.
    split; [done|]. split; [done|]. split; [done|]. by intros e [= <-].
  - split; [by eexists|]. split; [done|]. by intros e [= <-].
Qed.

Lemma run_reset_lgw_invocations_witness :
  let E := Env (λ _ args, if decide (args !! 1%nat = Some "stop")
                          then Exited 1 else Exited 3)
               (λ _, true) (λ _, None) (λ _, "") in
  let w := World [] ∅ 0 in
  let run := run_reset_lgw E true "/opt/sx1301/reset_lgw.sh"
               "/opt/sx1302/reset_lgw.sh" 17 w in
  events_since w run.2
    = [EvDebug "Executing /opt/sx1302/reset_lgw.sh with reset pin 17";
       EvRun ["/opt/sx1302/reset_lgw.sh"; "stop"; "17"];
       EvRun ["/opt/sx1302/reset_lgw.sh"; "start"; "17"]]
  ∧ run.1 = Ok tt.
Proof.
  intros E w run.
  destruct (run_reset_lgw_invocations E true "/opt/sx1301/reset_lgw.sh"
              "/opt/sx1302/reset_lgw.sh" 17 w) as (_ & Hreturns & _).
  destruct (Hreturns 1) as (Hevs & _ & Hok & _); [reflexivity|].
  split; [exact Hevs | apply (Hok 3); reflexivity].
Defined.

(** X10: when the "stop" run of the reset script raises,
    [run_reset_lgw] raises that very exception and the "start" run is
    never made: a reset that cannot stop the concentrator does not start
    it. *)
Theorem run_reset_lgw_stop_raises E is_sx1302 sx1301_reset_lgw_filepath
    sx1302_reset_lgw_filepath reset_lgw_pin w e :
  let script := reset_script is_sx1302 sx1301_reset_lgw_filepath
                  sx1302_reset_lgw_filepath in
  let run := run_reset_lgw E is_sx1302 sx1301_reset_lgw_filepath
               sx1302_reset_lgw_filepath reset_lgw_pin w in
  env_proc E (w_log w ++ [reset_debug script reset_lgw_pin])
    (reset_stop script reset_lgw_pin) = Raised e →
  run.1 = Exn e
  ∧ events_since w run.2
    = [reset_debug script reset_lgw_pin;
       EvRun (reset_stop script reset_lgw_pin)]
  ∧ EvRun (reset_start script reset_lgw_pin) ∉ events_since w run.2.
Proof.
  intros script run Hstop. subst run.
  rewrite run_reset_lgw_cases. fold script. rewrite Hstop.
  cbn [fst snd]. rewrite events_since_extend.
  split; [done|]. split; [done|].
  rewrite !not_elem_of_cons. repeat split; try done. apply not_elem_of_nil.
Qed.

Lemma run_reset_lgw_stop_raises_witness :
  let E := env_missing ["/r1.sh"] 0 in
  let w := World [] ∅ 0 in
  let run := run_reset_lgw E false "/r1.sh" "/r2.sh" 17 w in
  run.1 = Exn (FileNotFoundError "/r1.sh")
  ∧ events_since w run.2
    = [EvDebug "Executing /r1.sh with reset pin 17";
       EvRun ["/r1.sh"; "stop"; "17"]]
  ∧ EvRun ["/r1.sh"; "start"; "17"] ∉ events_since w run.2.
Proof.
  intros E w run.
  apply (run_reset_lgw_stop_raises E false "/r1.sh" "/r2.sh" 17 w
           (FileNotFoundError "/r1.sh")).
  reflexivity.
Defined.

(** ** The retry loop: the events of a run *)

Lemma retry_events_nil seconds last : retry_events seconds [] last = last.
Proof. reflexivity. Qed.

Lemma retry_events_cons seconds evs e failed last :
  retry_events seconds ((evs, e) :: failed) last
  = evs ++ [EvBeforeSleepLog seconds e; EvSleep seconds]
        ++ retry_events seconds failed last.
Proof.
  unfold retry_events. rewrite fmap_cons. cbn [mjoin list_join fst snd].
  by rewrite <- !app_assoc.
Qed.

Section retry_loop_events.

Context {A : Type} (seconds : Z) (fn : M A).
Context (Q : result A → list event → Prop).

(** The function under the decorator only adds events, and [Q] relates
    its result to them. *)
Hypothesis fn_events :
  ∀ w, ∃ evs, (fn w).2 = extend w evs ∧ Q (fn w).1 evs.

(** A run of the loop is a list of failed attempts and a last attempt
    with result [r]; each has events that [Q] allows. *)
Lemma retry_loop_events remaining w :
  ∃ failed last r,
    retry_loop seconds remaining fn w
    = (match r with Ok a => Ok a | Exn e => Exn (RetryError e) end,
       World (w_log w ++ retry_events seconds failed last) (w_fs w)
             (w_attempt_number w + length failed)%nat)
    ∧ (length failed ≤ remaining)%nat
    ∧ Forall (λ p, Q (Exn p.2) p.1) failed
    ∧ Q r last
    ∧ (is_exn r = true → length failed = remaining).
Proof.
  induction remaining as [|k IH] in w |- *;
    rewrite retry_loop_unfold;
    destruct (fn_events w) as (evs0 & Hw0 & HQ0);
    destruct (fn w) as [r0 w0]; cbn [fst snd] in Hw0, HQ0; subst w0.
  - exists [], evs0, r0. rewrite retry_events_nil. cbn [length].
    rewrite Nat.add_0_r. destruct r0; by repeat split.
  - destruct r0 as [a|e].
    + exists [], evs0, (Ok a). rewrite retry_events_nil. cbn [length].
      rewrite Nat.add_0_r. repeat split; try done. lia.
    + destruct (IH (World (w_log (extend w evs0) ++
                           [EvBeforeSleepLog seconds e; EvSleep seconds])
                          (w_fs (extend w evs0))
                          (S (w_attempt_number (extend w evs0)))))
        as (failed & last & r & Hrun & Hle & Hfailed & Hlast & Hx).
      exists ((evs0, e) :: failed), last, r.
      rewrite Hrun, retry_events_cons. cbn [w_log w_fs w_attempt_number extend
                                            length].
      split; [by rewrite <- !app_assoc, Nat.add_succ_r|].
      split; [lia|]. split; [by constructor|]. split; [done|].
      intros Hr. by rewrite (Hx Hr).
Qed.

End retry_loop_events.

(** No event of [evs] is a sleep. *)
Lemma sleeps_announced_no_sleep prev evs rest :
  Forall (λ ev, ∀ s, ev ≠ EvSleep s) evs →
  (∀ prev', sleeps_announced prev' rest = true) →
  sleeps_announced prev (evs ++ rest) = true.
Proof.
  intros Hevs Hrest. induction Hevs as [|ev evs Hev _ IH] in prev |- *;
    [apply Hrest|].
  cbn [app sleeps_announced]. rewrite IH, andb_true_r.
  destruct ev; try done. by destruct (Hev seconds).
Qed.

(** In the events of a run of the loop whose attempts do not sleep, every
    sleep comes right after its log line. *)
Lemma sleeps_announced_retry_events seconds failed last prev :
  Forall (λ p : list event * exn, Forall (λ ev, ∀ s, ev ≠ EvSleep s) p.1)
         failed →
  Forall (λ ev, ∀ s, ev ≠ EvSleep s) last →
  sleeps_announced prev (retry_events seconds failed last) = true.
Proof.
  intros Hfailed Hlast.
  induction Hfailed as [|[evs e] failed Hevs _ IH] in prev |- *.
  - rewrite retry_events_nil, <- (app_nil_r last).
    by apply sleeps_announced_no_sleep.
  - rewrite retry_events_cons. apply sleeps_announced_no_sleep; [done|].
    intros prev'. cbn [app sleeps_announced].
    by rewrite bool_decide_eq_true_2, IH.
Qed.

Lemma before_sleep_logs_retry_events seconds failed last :
  Forall (λ p : list event * exn, before_sleep_logs p.1 = []) failed →
  before_sleep_logs last = [] →
  before_sleep_logs (retry_events seconds failed last) = failed.*2.
Proof.
  intros Hfailed Hlast. unfold before_sleep_logs in *.
  induction Hfailed as [|[evs e] failed Hevs _ IH].
  - by rewrite retry_events_nil.
  - cbn [fst] in Hevs. by rewrite retry_events_cons, !omap_app, Hevs, IH.
Qed.

Lemma elem_of_retry_events seconds failed last ev :
  ev ∈ retry_events seconds failed last →
  (∃ p, p ∈ failed ∧ ev ∈ p.1) ∨ ev ∈ last
  ∨ (∃ e, ev = EvBeforeSleepLog seconds e) ∨ ev = EvSleep seconds.
Proof.
  induction failed as [|[evs e] failed IH].
  - rewrite retry_events_nil. by eauto.
  - rewrite retry_events_cons, !elem_of_app, !elem_of_cons.
    intros [Hev | [[-> | [-> | Hnil]] | Hrest]].
    + left. exists (evs, e). split; [by left|done].
    + right. right. left. by exists e.
    + by repeat right.
    + by apply elem_of_nil in Hnil.
    + destruct (IH Hrest) as [(p & Hp & Hev) | Hother]; [|by right].
      left. exists p. split; [by right|done].
Qed.

(** ** SupervisedLauncher: the whole log *)

Lemma sum_replicate (n : nat) (x : Z) :
  foldr Z.add 0 (replicate n x) = Z.of_nat n * x.
Proof. induction n as [|n IH]; [done|]. cbn [replicate foldr]. lia. Qed.

Section launcher.

Context (E : env) (is_sx1302 : bool).
Context (spi_bus sx1302_lora_pkt_fwd_filepath sx1301_lora_pkt_fwd_dir
         sx1301_reset_lgw_filepath sx1302_reset_lgw_filepath : string).
Context (reset_lgw_pin : Z).

Let script := reset_script is_sx1302 sx1301_reset_lgw_filepath
                sx1302_reset_lgw_filepath.
Let stop_cmd := reset_stop script reset_lgw_pin.
Let start_cmd := reset_start script reset_lgw_pin.
Let fwd := forwarder is_sx1302 spi_bus sx1302_lora_pkt_fwd_filepath
             sx1301_lora_pkt_fwd_dir.
Let dbg := reset_debug script reset_lgw_pin.
Let attempt := start_concentrator E is_sx1302 spi_bus
                 sx1302_lora_pkt_fwd_filepath sx1301_lora_pkt_fwd_dir
                 sx1301_reset_lgw_filepath sx1302_reset_lgw_filepath
                 reset_lgw_pin.
Let launch := retry_start_concentrator E is_sx1302 spi_bus
                sx1302_lora_pkt_fwd_filepath sx1301_lora_pkt_fwd_dir
                sx1301_reset_lgw_filepath sx1302_reset_lgw_filepath
                reset_lgw_pin.

(** The events of one attempt: it stops at the first run that raises. *)
Let shape (r : result unit) (evs : list event) : Prop :=
  evs = [dbg; EvRun stop_cmd]
  ∨ evs = [dbg; EvRun stop_cmd; EvRun start_cmd]
  ∨ evs = [dbg; EvRun stop_cmd; EvRun start_cmd; EvRun [fwd]].

Lemma start_concentrator_shape w :
  ∃ evs, (attempt w).2 = extend w evs ∧ shape (attempt w).1 evs.
Proof.
  subst attempt shape. cbv beta. rewrite start_concentrator_run.
  fold script dbg stop_cmd start_cmd fwd.
  repeat case_match; eexists; (split; [reflexivity|]); by eauto.
Qed.

(** The decorated function, for any relation [Q] that the attempts keep
    between their result and their events. *)
Lemma retry_start_concentrator_events (Q : result unit → list event → Prop) w :
  (∀ w0, ∃ evs, (attempt w0).2 = extend w0 evs ∧ Q (attempt w0).1 evs) →
  ∃ failed last r,
    launch w
    = (match r with Ok a => Ok a | Exn e => Exn (RetryError e) end,
       World (w_log w ++
              retry_events LORA_PKT_FWD_RETRY_SLEEP_SECONDS failed last)
             (w_fs w) (S (length failed)))
    ∧ (length failed ≤ 4)%nat
    ∧ Forall (λ p, Q (Exn p.2) p.1) failed
    ∧ Q r last
    ∧ (is_exn r = true → length failed = 4%nat).
Proof.
  intros HQ.
  destruct (retry_loop_events LORA_PKT_FWD_RETRY_SLEEP_SECONDS attempt Q HQ
              4 (World (w_log w) (w_fs w) 1))
    as (failed & last & r & Hrun & Hrest).
  exists failed, last, r. split; [|exact Hrest].
  subst launch. unfold retry_start_concentrator, retry, mbind, M_bind,
    set_attempt_number. exact Hrun.
Qed.

(** X11: on every environment the sleeps of [retry_start_concentrator]
    are as many as its attempts less one and each lasts
    [LORA_PKT_FWD_RETRY_SLEEP_SECONDS] = 2: the launcher never sleeps
    more than 8 seconds in all. *)
Theorem retry_start_concentrator_sleeps w :
  let evs := events_since w (launch w).2 in
  let attempts := w_attempt_number (launch w).2 in
  sleeps evs = replicate (attempts - 1) LORA_PKT_FWD_RETRY_SLEEP_SECONDS
  ∧ foldr Z.add 0 (sleeps evs) = (2 * (Z.of_nat attempts - 1))%Z
  ∧ (foldr Z.add 0 (sleeps evs) ≤ 8)%Z.
Proof.
  intros evs attempts. subst evs attempts launch.
  destruct (retry_start_concentrator_run E is_sx1302 spi_bus
              sx1302_lora_pkt_fwd_filepath sx1301_lora_pkt_fwd_dir
              sx1301_reset_lgw_filepath sx1302_reset_lgw_filepath
              reset_lgw_pin w)
    as (failed & wl & Hn & Hle & Hs & _).
  rewrite (sleeps_schedule stop_cmd). subst stop_cmd script.
  rewrite Hs, Hn, sleeps_retry_schedule. cbn [Nat.sub].
  rewrite Nat.sub_0_r, sum_replicate.
  unfold LORA_PKT_FWD_RETRY_SLEEP_SECONDS. repeat split; lia.
Qed.

(** X12: on every environment each sleep of [retry_start_concentrator]
    comes right after the log line that announces it, with the same
    number of seconds, and there are as many such log lines as failed
    attempts that were followed by another: no attempt fails silently
    and the launcher never sleeps without saying so. *)
Theorem retry_start_concentrator_logs_before_sleep w :
  let evs := events_since w (launch w).2 in
  let attempts := w_attempt_number (launch w).2 in
  sleeps_announced None evs = true
  ∧ length (before_sleep_logs evs) = (attempts - 1)%nat
  ∧ length (sleeps evs) = (attempts - 1)%nat.
Proof.
  intros evs attempts. subst evs attempts.
  destruct (retry_start_concentrator_events shape w
              start_concentrator_shape)
    as (failed & last & r & Hrun & _ & Hfailed & Hlast & _).
  rewrite Hrun. cbn [snd w_attempt_number Nat.sub].
  unfold events_since. cbn [w_log]. rewrite drop_app_length, Nat.sub_0_r.
  assert (Hshape : ∀ r0 l, shape r0 l →
            Forall (λ ev, ∀ s, ev ≠ EvSleep s) l
            ∧ before_sleep_logs l = [] ∧ sleeps l = []).
  { intros r0 l [-> | [-> | ->]]; (split; [|done]);
      repeat constructor; done. }
  destruct (Hshape r last Hlast) as (Hlast1 & Hlast2 & Hlast3).
  assert (Hfailed' : Forall (λ p : list event * exn,
                        Forall (λ ev, ∀ s, ev ≠ EvSleep s) p.1
                        ∧ before_sleep_logs p.1 = [] ∧ sleeps p.1 = [])
                     failed).
  { eapply Forall_impl; [exact Hfailed|]. intros p Hp.
    exact (Hshape (Exn p.2) p.1 Hp). }
  split; [|split].
  - apply sleeps_announced_retry_events; [|done].
    eapply Forall_impl; [exact Hfailed'|]. by intros p (? & _).
  - rewrite before_sleep_logs_retry_events, length_fmap; [done| |done].
    eapply Forall_impl; [exact Hfailed'|]. by intros p (_ & ? & _).
  - clear Hrun Hfailed. induction Hfailed' as [|[l e] failed Hl _ IH].
    + by rewrite retry_events_nil, Hlast3.
    + rewrite retry_events_cons. destruct Hl as (_ & _ & Hl).
      cbn [fst] in Hl. unfold sleeps in *. rewrite !omap_app, Hl.
      cbn [app omap list_omap length]. f_equal. exact IH.
Qed.

(** X13: on every environment [retry_start_concentrator] runs nothing
    but three command lines: the reset script of the generation with
    "stop" and with "start", and the forwarder of the generation.  It
    never runs the script or the forwarder of the other generation. *)
Theorem retry_start_concentrator_commands w args :
  EvRun args ∈ events_since w (launch w).2 →
  args = stop_cmd ∨ args = start_cmd ∨ args = [fwd].
Proof.
  destruct (retry_start_concentrator_events shape w
              start_concentrator_shape)
    as (failed & last & r & Hrun & _ & Hfailed & Hlast & _).
  rewrite Hrun. unfold events_since. cbn [snd w_log].
  rewrite drop_app_length. intros Hin.
  assert (Hshape : ∀ r0 l, shape r0 l → EvRun args ∈ l →
            args = stop_cmd ∨ args = start_cmd ∨ args = [fwd]).
  { intros r0 l [-> | [-> | ->]]; rewrite !elem_of_cons, elem_of_nil;
      intros Hl; destruct_or!; simplify_eq; by eauto. }
  apply elem_of_retry_events in Hin
    as [(p & Hp & Hev) | [Hev | [[e Hev] | Hev]]]; [| |done..].
  - rewrite Forall_forall in Hfailed. by eapply Hshape, Hev; apply Hfailed.
  - by eapply Hshape, Hev.
Qed.

(** X14: when the "stop" run of the reset script raises every time (the
    script is missing, say), [retry_start_concentrator] makes its five
    attempts and raises [RetryError] without ever running "start" or the
    forwarder. *)
Theorem retry_start_concentrator_reset_missing w :
  let evs := events_since w (launch w).2 in
  (∀ h, ∃ e, env_proc E h stop_cmd = Raised e) →
  (EvRun [fwd] ∉ evs)
  ∧ (EvRun start_cmd ∉ evs)
  ∧ w_attempt_number (launch w).2 = 5%nat
  ∧ ∃ e, (launch w).1 = Exn (RetryError e).
Proof.
  intros evs Hstop. subst evs.
  destruct (retry_start_concentrator_events
              (λ r l, l = [dbg; EvRun stop_cmd] ∧ is_exn r = true) w)
    as (failed & last & r & Hrun & _ & Hfailed & [-> Hr] & Hx).
  { intros w0. subst attempt. rewrite start_concentrator_run.
    fold script dbg stop_cmd start_cmd fwd.
    destruct (Hstop (w_log w0 ++ [dbg])) as [e ->]. by eexists. }
  rewrite Hrun. cbn [fst snd w_attempt_number]. unfold events_since.
  cbn [w_log]. rewrite drop_app_length, (Hx Hr).
  assert (Hnot : ∀ ev, ev = EvRun [fwd] ∨ ev = EvRun start_cmd →
            ev ∉ retry_events LORA_PKT_FWD_RETRY_SLEEP_SECONDS failed
                   [dbg; EvRun stop_cmd]).
  { intros ev Hev Hin.
    assert (Hattempt : ev ∉ [dbg; EvRun stop_cmd]).
    { rewrite !not_elem_of_cons.
      destruct Hev as [-> | ->]; repeat split; try done;
        apply not_elem_of_nil. }
    apply elem_of_retry_events in Hin
      as [(p & Hp & Hin) | [Hin | [[e ->] | ->]]];
      [|done|by destruct Hev..].
    rewrite Forall_forall in Hfailed. destruct (Hfailed p Hp) as [Hl _].
    by rewrite Hl in Hin. }
  split; [apply Hnot; by left|]. split; [apply Hnot; by right|].
  split; [done|]. destruct r as [[]|e]; [done|]. by exists e.
Qed.

(** X15: when the launch of the forwarder raises [e] every time and every
    other run returns, [retry_start_concentrator] raises [RetryError]
    around that very [e], and each of its four log lines reports [e]:
    the caller and the log both name the cause. *)
Theorem retry_start_concentrator_reports_cause w e :
  let evs := events_since w (launch w).2 in
  (∀ h, env_proc E h [fwd] = Raised e) →
  (∀ h args, args ≠ [fwd] → ∃ rc, env_proc E h args = Exited rc) →
  (launch w).1 = Exn (RetryError e)
  ∧ before_sleep_logs evs = [e; e; e; e].
Proof.
  intros evs Hfwd Hother. subst evs.
  destruct (retry_start_concentrator_events
              (λ r l, r = Exn e ∧ before_sleep_logs l = []) w)
    as (failed & last & r & Hrun & _ & Hfailed & [-> Hlast] & Hx).
  { intros w0. subst attempt. rewrite start_concentrator_run.
    fold script dbg stop_cmd start_cmd fwd.
    destruct (Hother (w_log w0 ++ [dbg]) stop_cmd) as [rc1 ->]; [done|].
    destruct (Hother (w_log w0 ++ [dbg; EvRun stop_cmd]) start_cmd)
      as [rc2 ->]; [done|].
    rewrite Hfwd. by eexists. }
  rewrite Hrun. cbn [fst snd]. split; [done|]. unfold events_since.
  cbn [w_log]. rewrite drop_app_length.
  rewrite before_sleep_logs_retry_events;
    [|eapply Forall_impl; [exact Hfailed|]; by intros p [_ ?]|done].
  specialize (Hx eq_refl).
  assert (Hall : Forall (λ e0, e0 = e) failed.*2).
  { apply Forall_fmap. eapply Forall_impl; [exact Hfailed|].
    intros p [Hp _]. by injection Hp. }
  rewrite <- length_fmap with (f := snd) in Hx.
  destruct (failed.*2) as [|e1 [|e2 [|e3 [|e4 [|e5 l]]]]]; try done.
  by repeat (apply Forall_cons in Hall as [-> Hall]).
Qed.

End launcher.

Lemma retry_start_concentrator_commands_witness :
  let E := env_late "/opt/fwd" 1 in
  let w := World [] ∅ 0 in
  EvRun ["/r2.sh"; "start"; "17"]
    ∈ events_since w (retry_start_concentrator E true "spidev1.2" "/opt/fwd"
                        "/opt/sx1301" "/r1.sh" "/r2.sh" 17 w).2
  ∧ (["/r2.sh"; "start"; "17"] = ["/r2.sh"; "stop"; "17"]
     ∨ ["/r2.sh"; "start"; "17"] = ["/r2.sh"; "start"; "17"]
     ∨ ["/r2.sh"; "start"; "17"] = ["/opt/fwd"]).
Proof.
  intros E w.
  assert (Hin : EvRun ["/r2.sh"; "start"; "17"]
                ∈ events_since w
                    (retry_start_concentrator E true "spidev1.2" "/opt/fwd"
                       "/opt/sx1301" "/r1.sh" "/r2.sh" 17 w).2)
    by (vm_compute; do 2 right; left).
  split; [exact Hin|].
  exact (retry_start_concentrator_commands E true "spidev1.2" "/opt/fwd"
           "/opt/sx1301" "/r1.sh" "/r2.sh" 17 w _ Hin).
Defined.

Lemma retry_start_concentrator_reset_missing_witness :
  let E := env_missing ["/r1.sh"] 0 in
  let w := World [] ∅ 0 in
  let run := retry_start_concentrator E false "spidev1.2" "/opt/fwd"
               "/opt/sx1301" "/r1.sh" "/r2.sh" 17 w in
  (EvRun ["/opt/sx1301/lora_pkt_fwd_spidev1.2"] ∉ events_since w run.2)
  ∧ (EvRun ["/r1.sh"; "start"; "17"] ∉ events_since w run.2)
  ∧ w_attempt_number run.2 = 5%nat
  ∧ ∃ e, run.1 = Exn (RetryError e).
Proof.
  intros E w run.
  apply (retry_start_concentrator_reset_missing E false "spidev1.2"
           "/opt/fwd" "/opt/sx1301" "/r1.sh" "/r2.sh" 17 w).
  intros h. eexists. reflexivity.
Defined.

Lemma retry_start_concentrator_reports_cause_witness :
  let E := Env (λ _ args, if decide (args = ["/opt/fwd"])
                          then Raised (PermissionError "/opt/fwd")
                          else Exited 1)
               (λ _, true) (λ _, None) (λ _, "") in
  let w := World [] ∅ 0 in
  let run := retry_start_concentrator E true "spidev1.2" "/opt/fwd"
               "/opt/sx1301" "/r1.sh" "/r2.sh" 17 w in
  run.1 = Exn (RetryError (PermissionError "/opt/fwd"))
  ∧ before_sleep_logs (events_since w run.2)
    = [PermissionError "/opt/fwd"; PermissionError "/opt/fwd";
       PermissionError "/opt/fwd"; PermissionError "/opt/fwd"].
Proof.
  intros E w run.
  apply (retry_start_concentrator_reports_cause E true "spidev1.2"
           "/opt/fwd" "/opt/sx1301" "/r1.sh" "/r2.sh" 17 w
           (PermissionError "/opt/fwd")).
  - intros h. reflexivity.
  - intros h args Hne. exists 1. unfold E. cbn [env_proc].
    by rewrite decide_False.
Defined.
